(** * Eye color and 23andMe data: a shallow embedding of the notebook

    The notebook [eye-color-and-23andme-data.ipynb] has five code cells:

    - cell 1 looks for a 23andMe file among the member's Open Humans
      entries and downloads it;
    - cell 2 scans the file for three SNPs and builds [your_genotype];
    - cell 3 downloads four openSNP data sets;
    - cell 4 joins them into [genotypes_to_color];
    - cell 5 tallies, sorts and prints the eye colors recorded for
      [your_genotype].

    Python values are embedded as follows.  A [str] is a Rocq [string]
    whose characters stand for code points below 256; the lines of the
    file are taken after [decode('utf-8')].  A [dict] whose iteration order
    is never observed is a [gmap]; a [dict] that the code iterates over is
    an insertion-ordered association list, as the dictionaries of the
    Python 3.6 of the notebook are.  A Python [int] is a [Z]; the quotient
    of two [int]s is taken in [Q], of which the [float] of Python is a
    rounding.  A statement that can raise returns a [result].  The JSON
    documents of cell 3 are taken as typed records, and the identifier of
    a subject as a value of any type with a decidable equality. *)

From Stdlib Require Import String Ascii List ZArith QArith Lia Permutation.
From stdpp Require Import gmap strings list fin_maps.

Local Open Scope string_scope.
Local Open Scope list_scope.
Local Open Scope Z_scope.

(** ** Python preliminaries *)

Module Py.

(** The exceptions that the statements of the notebook can raise. *)
Inductive exn : Set :=
| NameError
| KeyError
| IndexError
| ZeroDivisionError
| RequestException.

Inductive result (A : Type) : Type :=
| Ok (a : A)
| Raise (e : exn).

Arguments Ok {A} a.
Arguments Raise {A} e.

Definition bind {A B : Type} (r : result A) (k : A -> result B) : result B :=
  match r with
  | Ok a => k a
  | Raise e => Raise e
  end.

(** A [for] loop whose body may raise: the first exception ends it. *)
Fixpoint for_each {A S : Type} (body : S -> A -> result S) (xs : list A) (s : S)
  : result S :=
  match xs with
  | [] => Ok s
  | x :: xs' => bind (body s x) (for_each body xs')
  end.

(** A list comprehension whose element expression may raise. *)
Fixpoint comprehension {A B : Type} (f : A -> result B) (xs : list A)
  : result (list B) :=
  match xs with
  | [] => Ok []
  | x :: xs' =>
      bind (f x) (fun y => bind (comprehension f xs') (fun ys => Ok (y :: ys)))
  end.

(** [xs[i]] on a list, for an index that is not negative. *)
Definition index {A : Type} (xs : list A) (i : nat) : result A :=
  match xs !! i with
  | Some x => Ok x
  | None => Raise IndexError
  end.

(** [d[k]] on a dictionary. *)
Definition getitem {K V : Type} `{Countable K} (d : gmap K V) (k : K)
  : result V :=
  match d !! k with
  | Some v => Ok v
  | None => Raise KeyError
  end.

(** *** [str] methods *)

Definition tab : ascii := ascii_of_nat 9.
Definition newline : ascii := ascii_of_nat 10.

(** [str.isspace] on one character, for code points below 256. *)
Definition isspace (c : ascii) : bool :=
  let n := nat_of_ascii c in
  ((9 <=? n)%nat && (n <=? 13)%nat)
  || ((28 <=? n)%nat && (n <=? 32)%nat)
  || (n =? 133)%nat
  || (n =? 160)%nat.

Fixpoint lstrip (s : string) : string :=
  match s with
  | EmptyString => EmptyString
  | String c s' => if isspace c then lstrip s' else s
  end.

Fixpoint rstrip (s : string) : string :=
  match s with
  | EmptyString => EmptyString
  | String c s' =>
      match rstrip s' with
      | EmptyString => if isspace c then EmptyString else String c EmptyString
      | r => String c r
      end
  end.

(** [s.strip()] *)
Definition strip (s : string) : string := rstrip (lstrip s).

(** [s.startswith(p)] *)
Fixpoint startswith (s p : string) : bool :=
  match p with
  | EmptyString => true
  | String a p' =>
      match s with
      | EmptyString => false
      | String b s' => Ascii.eqb b a && startswith s' p'
      end
  end.

(** [s.split(sep)] for a separator of one character: the fields between
    the separators, of which there is always at least one. *)
Fixpoint split (sep : ascii) (s : string) : list string :=
  match s with
  | EmptyString => [EmptyString]
  | String c s' =>
      if Ascii.eqb c sep then EmptyString :: split sep s'
      else match split sep s' with
           | f :: fs => String c f :: fs
           | [] => [String c EmptyString]
           end
  end.

(** [s.lower()] on one character, for code points below 256: the letters
    A to Z, and the capital letters of Latin-1 apart from the
    multiplication sign. *)
Definition lower_char (c : ascii) : ascii :=
  let n := nat_of_ascii c in
  if ((65 <=? n)%nat && (n <=? 90)%nat)
     || ((192 <=? n)%nat && (n <=? 222)%nat && negb (n =? 215)%nat)
  then ascii_of_nat (n + 32)
  else c.

Fixpoint lower (s : string) : string :=
  match s with
  | EmptyString => EmptyString
  | String c s' => String (lower_char c) (lower s')
  end.

(** ['{}'.format(x)] for [x] a [str] or [None]. *)
Definition format (x : option string) : string :=
  match x with
  | Some s => s
  | None => "None"
  end.

(** Truth value of a [str] or [None]. *)
Definition truthy (x : option string) : bool :=
  match x with
  | Some (String _ _) => true
  | _ => false
  end.

(** Iterating over a file opened in binary mode: every line keeps its
    line feed, and a last line without one is produced as it is. *)
Fixpoint file_lines (content : string) : list string :=
  match content with
  | EmptyString => []
  | String c s' =>
      if Ascii.eqb c newline then String c EmptyString :: file_lines s'
      else match file_lines s' with
           | l :: ls => String c l :: ls
           | [] => [String c EmptyString]
           end
  end.

(** *** Insertion-ordered dictionaries

    [d[k] = v] keeps the position of a key that is already present and
    appends a new key at the end. *)
Section OrderedDict.
Context {K V : Type} `{EqDecision K}.

Fixpoint od_get (k : K) (d : list (K * V)) : option V :=
  match d with
  | [] => None
  | (k', v) :: d' => if decide (k = k') then Some v else od_get k d'
  end.

Fixpoint od_set (k : K) (v : V) (d : list (K * V)) : list (K * V) :=
  match d with
  | [] => [(k, v)]
  | (k', v') :: d' =>
      if decide (k = k') then (k', v) :: d' else (k', v') :: od_set k v d'
  end.

Definition od_keys (d : list (K * V)) : list K := map fst d.

Definition od_getitem (d : list (K * V)) (k : K) : result V :=
  match od_get k d with
  | Some v => Ok v
  | None => Raise KeyError
  end.
End OrderedDict.

(** *** [sorted(xs, key=..., reverse=True)]

    The built-in sort is stable, and stays so with [reverse=True]: items
    with equal keys keep their order.  The result of a stable sort is
    determined by its input (see [SortFacts.sorted_reverse_unique]), so
    that an insertion sort gives the list that the built-in gives. *)
Section Sorted.
Context {A : Type} (key : A -> Z).

Fixpoint insert_reverse (x : A) (l : list A) : list A :=
  match l with
  | [] => [x]
  | y :: l' =>
      if key y <=? key x then x :: y :: l' else y :: insert_reverse x l'
  end.

Fixpoint sorted_reverse (l : list A) : list A :=
  match l with
  | [] => []
  | x :: l' => insert_reverse x (sorted_reverse l')
  end.
End Sorted.

(** [sum(xs)] *)
Definition sum (xs : list Z) : Z := fold_right Z.add 0 xs.

(** [a / b] on two [int]s, as an exact quotient. *)
Definition truediv (a b : Z) : result Q :=
  if b =? 0 then Raise ZeroDivisionError
  else Ok (inject_Z a / inject_Z b)%Q.

End Py.

Import Py.

Notation "'let*' x ':=' r 'in' k" := (bind r (fun x => k))
  (at level 10, x name, r at level 100, k at level 200).

(** ** Cell 1: finding and downloading the 23andMe file *)

Module Download.

(** An entry of [user['data']]: [entry['source']],
    [entry['metadata']['tags']] and [entry['download_url']]. *)
Record entry : Type := {
  source : string;
  tags : list string;
  download_url : string
}.

Definition msg_checking : string :=
  "Checking for 23andMe data in Open Humans..." +:+ String newline EmptyString.
Definition msg_sorry : string :=
  "Sorry, you first need to add 23andMe data to Open Humans!"
  +:+ String newline EmptyString
  +:+ "You can do that here: https://www.openhumans.org/activity/23andme-upload/".
Definition msg_great : string :=
  "Great, you have 23andMe data in Open Humans! We'll retrieve this..."
  +:+ String newline EmptyString.
Definition msg_done : string := "Done!".

Definition qualifies (e : entry) : bool :=
  bool_decide (source e = "direct-sharing-128")
  && negb (bool_decide ("vcf" ∈ tags e)).

(** The [for] loop with its [break]: [file_url_23andme] is bound to the
    URL of the first qualifying entry, and stays unbound when there is
    none. *)
Fixpoint file_url_23andme (data : list entry) : option string :=
  match data with
  | [] => None
  | e :: data' =>
      if qualifies e then Some (download_url e) else file_url_23andme data'
  end.

Section Cell.
(** [requests.get(url).content], which may raise. *)
Variable requests_get : string -> result string.

(** The cell in a fresh kernel: what it prints, and either the content
    written to [file_23andme] or the exception that ends the cell.
    The two statements after the [if] are not part of its [else]
    branch: they are run in both cases, and reading the unbound name
    raises [NameError]. *)
Definition cell1 (data : list entry) : list string * result string :=
  let url := file_url_23andme data in
  let out :=
    msg_checking ::
    (match url with
     | None => [msg_sorry]
     | Some _ => [msg_great]
     end) in
  match (let* u := (match url with
                    | None => Raise NameError
                    | Some u => Ok u
                    end) in
         requests_get u) with
  | Ok content => (app out [msg_done], Ok content)
  | Raise e => (out, Raise e)
  end.
End Cell.

End Download.

(** ** Cell 2: the genotype at three SNPs *)

Module Extractor.

Definition rs12913832 : string := "rs12913832".
Definition rs16891982 : string := "rs16891982".
Definition rs12203592 : string := "rs12203592".

(** The dictionary [snps] as it is initialised. *)
Definition snps_init : gmap string (option string) :=
  <[rs12913832 := None]> (<[rs16891982 := None]> (<[rs12203592 := None]> ∅)).

(** The body of the loop over the lines of the file, on a decoded
    line. *)
Definition scan_line (snps : gmap string (option string)) (line : string)
  : result (gmap string (option string)) :=
  let line := strip line in
  if startswith line "#" then Ok snps
  else
    let line_data := split tab line in
    let* k := index line_data 0 in
    if bool_decide (is_Some (snps !! k)) then
      let* g := index line_data 3 in
      Ok (<[k := Some g]> snps)
    else Ok snps.

Definition scan (lines : list string) : result (gmap string (option string)) :=
  for_each scan_line lines snps_init.

(** The lines that the second loop prints, in the order of the keys of
    [snps]. *)
Definition report_line (snps : gmap string (option string)) (snp : string)
  : result string :=
  let* v := getitem snps snp in
  Ok (snp +:+ ":" +:+ String tab EmptyString +:+ (if truthy v then format v else "Unknown")).

Definition genotype_of (snps : gmap string (option string))
  : result (string * string * string) :=
  let* a := getitem snps rs12203592 in
  let* b := getitem snps rs12913832 in
  let* c := getitem snps rs16891982 in
  Ok (format a, format b, format c).

(** The whole cell: the printed lines and [your_genotype]. *)
Definition cell2 (lines : list string)
  : result (list string * (string * string * string)) :=
  let* snps := scan lines in
  let* out := comprehension (report_line snps) [rs12913832; rs16891982; rs12203592] in
  let* g := genotype_of snps in
  Ok (out, g).

Definition your_genotype (lines : list string)
  : result (string * string * string) :=
  let* r := cell2 lines in Ok (snd r).

(** A line is a comment when it begins with the marker. *)
Definition is_comment (line : string) : bool := startswith line "#".

End Extractor.

(** ** Cells 3 and 4: the openSNP data and the index of eye colors *)

Module IndexBuilder.

(** An element of [opensnp_eyecolors['users']]: [item['user_id']] and
    [item['variation']]. *)
Record eyecolor_item (uid : Type) : Type := {
  user_id : uid;
  variation : string
}.

(** An element of a genotype data set: [item['user']['id']] and, for
    every element of [item['user']['genotypes']], its
    ['local_genotype']. *)
Record genotype_item (uid : Type) : Type := {
  id : uid;
  genotypes : list string
}.

Arguments user_id {uid} _.
Arguments variation {uid} _.
Arguments id {uid} _.
Arguments genotypes {uid} _.

(** The four data sets that cell 3 loads. *)
Record datasets (uid : Type) : Type := {
  opensnp_eyecolors : list (eyecolor_item uid);
  opensnp_rs12203592 : list (genotype_item uid);
  opensnp_rs12913832 : list (genotype_item uid);
  opensnp_rs16891982 : list (genotype_item uid)
}.

Arguments opensnp_eyecolors {uid} _.
Arguments opensnp_rs12203592 {uid} _.
Arguments opensnp_rs12913832 {uid} _.
Arguments opensnp_rs16891982 {uid} _.

Section Builder.
Context {uid : Type} `{Countable uid}.

(** [{item['user_id']: item['variation'].lower() for item in users}] *)
Definition eyecolor_by_uid (users : list (eyecolor_item uid))
  : list (uid * string) :=
  fold_left (fun d item => od_set (user_id item) (lower (variation item)) d)
            users [].

(** [{item['user']['id']: item['user']['genotypes'][0]['local_genotype']
      for item in items if item['user']['genotypes']}] *)
Definition genotype_by_uid (items : list (genotype_item uid))
  : gmap uid string :=
  fold_left (fun m item =>
               match genotypes item with
               | [] => m
               | g :: _ => <[id item := g]> m
               end)
            items ∅.

Definition in_all (m1 m2 m3 : gmap uid string) (u : uid) : bool :=
  bool_decide (is_Some (m1 !! u))
  && bool_decide (is_Some (m2 !! u))
  && bool_decide (is_Some (m3 !! u)).

Definition joint_uids (e : list (uid * string)) (m1 m2 m3 : gmap uid string)
  : list uid :=
  List.filter (in_all m1 m2 m3) (od_keys e).

(** The body of the loop over [joint_uids]. *)
Definition add_subject (e : list (uid * string)) (m1 m2 m3 : gmap uid string)
           (idx : gmap (string * string * string) (list string)) (u : uid)
  : result (gmap (string * string * string) (list string)) :=
  let* a := getitem m1 u in
  let* b := getitem m2 u in
  let* c := getitem m3 u in
  let genotype := (format (Some a), format (Some b), format (Some c)) in
  match idx !! genotype with
  | Some colors =>
      let* color := od_getitem e u in
      Ok (<[genotype := app colors [color]]> idx)
  | None =>
      let* color := od_getitem e u in
      Ok (<[genotype := [color]]> idx)
  end.

Definition genotypes_to_color (ds : datasets uid)
  : result (gmap (string * string * string) (list string)) :=
  let e := eyecolor_by_uid (opensnp_eyecolors ds) in
  let m1 := genotype_by_uid (opensnp_rs12203592 ds) in
  let m2 := genotype_by_uid (opensnp_rs12913832 ds) in
  let m3 := genotype_by_uid (opensnp_rs16891982 ds) in
  for_each (add_subject e m1 m2 m3) (joint_uids e m1 m2 m3) ∅.
End Builder.

End IndexBuilder.

(** ** Cell 5: the distribution of eye colors *)

Module Reporter.

(** The body of the tallying loop. *)
Definition count_color (color_counts : list (string * Z)) (color : string)
  : list (string * Z) :=
  match od_get color color_counts with
  | Some n => od_set color (n + 1) color_counts
  | None => od_set color 1 color_counts
  end.

Definition tally (colors : list string) : list (string * Z) :=
  fold_left count_color colors [].

(** The variables that the cell binds. *)
Record report : Type := {
  color_counts : list (string * Z);
  color_count_sum : Z;
  color_count_percentages : list (string * Q)
}.

Definition share (total : Z) (item : string * Z) : result (string * Q) :=
  let* q := truediv (snd item) total in Ok (fst item, q).

Definition distribution (colors : list string) : result report :=
  let counts := sorted_reverse snd (tally colors) in
  let total := sum (map snd counts) in
  let* percentages := comprehension (share total) counts in
  Ok {| color_counts := counts;
        color_count_sum := total;
        color_count_percentages := percentages |}.

Definition cell5 (genotypes_to_color : gmap (string * string * string) (list string))
           (your_genotype : string * string * string) : result report :=
  let* colors := getitem genotypes_to_color your_genotype in
  distribution colors.

(** The sum of the shares of a distribution. *)
Definition total_share (d : list (string * Q)) : Q :=
  fold_right Qplus 0%Q (map snd d).

End Reporter.

(** ** Vocabulary of the statements

    The definitions above follow the cells of the notebook.  The ones
    below are not part of it: they name what the statements about it talk
    about. *)

Module Vocabulary.
Import Extractor IndexBuilder.

(** The three SNPs that the notebook looks for. *)
Definition targets : list string := [rs12913832; rs16891982; rs12203592].

(** The dictionary has the three SNPs as its keys. *)
Definition tracks (snps : gmap string (option string)) : Prop :=
  ∀ k, is_Some (snps !! k) ↔ k ∈ targets.

(** The fields of a line, as the loop of cell 2 sees them. *)
Definition fields (line : string) : list string := split tab (strip line).

(** The loop of cell 2 skips the line. *)
Definition skipped (line : string) : bool := startswith (strip line) "#".

(** The line is a record of the SNP [k]. *)
Definition names (line k : string) : Prop :=
  skipped line = false ∧ fields line !! 0%nat = Some k.

(** The line is a record of [k] with the genotype [g]. *)
Definition records (line k g : string) : Prop :=
  names line k ∧ fields line !! 3%nat = Some g.

(** The lines of the file that are records of one of the three SNPs
    have the four fields of a record. *)
Definition well_formed (lines : list string) : Prop :=
  ∀ line k, line ∈ lines → k ∈ targets → names line k →
            (4 <= length (fields line))%nat.

(** The record of [k] that comes last in the file has the genotype
    [g]. *)
Definition last_record (lines : list string) (k g : string) : Prop :=
  ∃ before line after,
    lines = before ++ line :: after
    ∧ records line k g
    ∧ ∀ line', line' ∈ after → ¬ names line' k.

(** No line of the file is a record of [k]. *)
Definition absent (lines : list string) (k : string) : Prop :=
  ∀ line, line ∈ lines → ¬ names line k.

(** The position of a SNP in [your_genotype]. *)
Definition component (k : string) (t : string * string * string) : string :=
  if decide (k = rs12203592) then t.1.1
  else if decide (k = rs12913832) then t.1.2
  else t.2.

(** The text of a file from its lines, each ended by a line feed. *)
Definition unlines (lines : list string) : string :=
  fold_right (fun l s => l +:+ String newline s) EmptyString lines.

(** The line of a record: four fields with tabs between them. *)
Definition record_line (snp chromosome position genotype : string) : string :=
  snp +:+ String tab (chromosome +:+ String tab (position +:+ String tab genotype)).

(** A field that is not empty and has no white space in it, hence no
    tab. *)
Fixpoint solid (s : string) : bool :=
  match s with
  | EmptyString => true
  | String c s' => negb (isspace c) && solid s'
  end.

Definition plain (s : string) : Prop := s ≠ EmptyString ∧ solid s = true.

(** A run of white space, such as the end of a line. *)
Fixpoint blank (s : string) : bool :=
  match s with
  | EmptyString => true
  | String c s' => isspace c && blank s'
  end.

(** A line of a 23andMe file: a comment, or a record of four plain fields
    and the end of the line. *)
Definition file_line (line : string) : Prop :=
  is_comment line = true
  ∨ ∃ a b c d ending,
      plain a ∧ plain b ∧ plain c ∧ plain d ∧ blank ending = true
      ∧ line = record_line a b c d +:+ ending.

(** The file of the scenario of the specification. *)
Definition scenario_lines : list string :=
  [ record_line "rs12913832" "15" "1234" "AG";
    record_line "rs16891982" "5" "5678" "GG";
    record_line "rs12203592" "6" "9012" "CC";
    "#comment" ].

(** The distinct labels of a list, in the order in which they are first
    met. *)
Fixpoint first_seen (colors : list string) : list string :=
  match colors with
  | [] => []
  | c :: colors' =>
      c :: List.filter (fun x => negb (bool_decide (x = c))) (first_seen colors')
  end.

(** The number of occurrences of a label. *)
Definition occurrences (colors : list string) (c : string) : Z :=
  Z.of_nat (length (List.filter (fun x => bool_decide (x = c)) colors)).

(** The list of counts that gives the count [f x] to each label [x] of
    a list. *)
Definition tabulate (f : string -> Z) (keys : list string)
  : list (string * Z) :=
  map (fun x => (x, f x)) keys.

(** The labels that occur [n] times, in the order in which they are
    first met. *)
Definition first_seen_with (n : Z) (colors : list string) : list string :=
  List.filter (fun c => occurrences colors c =? n) (first_seen colors).

(** The shares that go with a list of counts and their total. *)
Definition shares (total : Z) (counts : list (string * Z)) : list (string * Q) :=
  map (fun item => (fst item, (inject_Z (snd item) / inject_Z total)%Q)) counts.

(** The items of a list that have the key [n], in their order. *)
Definition keyed {A : Type} (key : A -> Z) (n : Z) (l : list A) : list A :=
  List.filter (fun x => key x =? n) l.

(** A list whose keys never increase. *)
Fixpoint descending {A : Type} (key : A -> Z) (l : list A) : Prop :=
  match l with
  | [] => True
  | x :: l' => (∀ y, y ∈ l' → key y <= key x) ∧ descending key l'
  end.

(** The items of a list of counts that have the count [n], in their
    order. *)
Definition with_count (n : Z) (l : list (string * Z)) : list (string * Z) :=
  keyed snd n l.

(** A list of counts that never increases. *)
Definition non_increasing (l : list (string * Z)) : Prop := descending snd l.

Section Subjects.
Context {uid : Type} `{Countable uid}.

(** The genotype of a subject at the three SNPs, when the three
    dictionaries have it. *)
Definition tuple_of (m1 m2 m3 : gmap uid string) (u : uid)
  : option (string * string * string) :=
  match m1 !! u, m2 !! u, m3 !! u with
  | Some a, Some b, Some c => Some (a, b, c)
  | _, _, _ => None
  end.

(** The subjects of a list that have the genotype [t], in their
    order. *)
Definition members (m1 m2 m3 : gmap uid string) (t : string * string * string)
           (us : list uid) : list uid :=
  List.filter (fun u => bool_decide (tuple_of m1 m2 m3 u = Some t)) us.

(** The index holds, for every genotype, the labels of the subjects
    of [us] that have it, in their order, and has no key for a
    genotype that no subject has. *)
Definition indexes (e : list (uid * string)) (m1 m2 m3 : gmap uid string)
           (idx : gmap (string * string * string) (list string))
           (us : list uid) : Prop :=
  ∀ t, match idx !! t with
       | None => members m1 m2 m3 t us = []
       | Some colors =>
           members m1 m2 m3 t us ≠ []
           ∧ Forall2 (fun u c => od_get u e = Some c) (members m1 m2 m3 t us) colors
       end.

(** The subject [u] reports the eye color that is recorded as [c]. *)
Definition reports (users : list (eyecolor_item uid)) (u : uid) (c : string)
  : Prop :=
  ∃ item, item ∈ users ∧ user_id item = u ∧ lower (variation item) = c.

(** A record of the subject [u] has a list of observations that is not
    empty and begins with [g]. *)
Definition observed (items : list (genotype_item uid)) (u : uid) (g : string)
  : Prop :=
  ∃ item rest, item ∈ items ∧ id item = u ∧ genotypes item = g :: rest.

(** The subject has what the index needs in each of the four data
    sets, with the genotype [t] and the label [c]. *)
Definition complete (ds : datasets uid) (t : string * string * string)
           (u : uid) (c : string) : Prop :=
  reports (opensnp_eyecolors ds) u c
  ∧ observed (opensnp_rs12203592 ds) u t.1.1
  ∧ observed (opensnp_rs12913832 ds) u t.1.2
  ∧ observed (opensnp_rs16891982 ds) u t.2.

(** The subject is missing from one of the four data sets. *)
Definition missing (ds : datasets uid) (u : uid) : Prop :=
  (∀ c, ¬ reports (opensnp_eyecolors ds) u c)
  ∨ (∀ g, ¬ observed (opensnp_rs12203592 ds) u g)
  ∨ (∀ g, ¬ observed (opensnp_rs12913832 ds) u g)
  ∨ (∀ g, ¬ observed (opensnp_rs16891982 ds) u g).
End Subjects.

End Vocabulary.

Import Vocabulary.

(** ** Inputs of the examples *)

Module Examples.
Import IndexBuilder Reporter.

(** A file that records rs12913832 twice. *)
Definition repeated_lines : list string :=
  [ record_line "rs12913832" "15" "1234" "AA";
    "#comment";
    record_line "rs12913832" "15" "1234" "AG";
    record_line "rs16891982" "5" "5678" "GG" ].

(** A file without rs12203592. *)
Definition partial_lines : list string :=
  [ "#comment";
    record_line "rs12913832" "15" "1234" "AG";
    record_line "rs16891982" "5" "5678" "GG" ].

(** The lines of the scenario in another order. *)
Definition shuffled_lines : list string :=
  [ "#comment";
    record_line "rs12203592" "6" "9012" "CC";
    record_line "rs16891982" "5" "5678" "GG";
    record_line "rs12913832" "15" "1234" "AG" ].

(** The data sets of the scenario of the specification, with a second
    subject who has no observation at rs12203592. *)
Definition scenario_datasets : datasets string :=
  {| opensnp_eyecolors :=
       [ {| user_id := "42"; variation := "Brown" |};
         {| user_id := "7"; variation := "Blue" |} ];
     opensnp_rs12203592 :=
       [ {| id := "42"; genotypes := ["CC"] |};
         {| id := "7"; genotypes := [] |} ];
     opensnp_rs12913832 :=
       [ {| id := "42"; genotypes := ["AG"; "GG"] |};
         {| id := "7"; genotypes := ["GG"] |} ];
     opensnp_rs16891982 :=
       [ {| id := "42"; genotypes := ["GG"] |};
         {| id := "7"; genotypes := ["GG"] |} ] |}.

Definition scenario_index : gmap (string * string * string) (list string) :=
  <[("CC", "AG", "GG") := ["brown"]]> ∅.

Definition scenario_report : report :=
  {| color_counts := [("brown", 1)];
     color_count_sum := 1;
     color_count_percentages := [("brown", 1%Q)] |}.

End Examples.

(** ** Further notions and inputs *)

Module Notions.
Import Download Extractor IndexBuilder Reporter.

(** Three entries of a member: a VCF file of 23andMe, a file of another
    source, and two 23andMe files that qualify. *)
Definition vcf_entry : entry :=
  {| source := "direct-sharing-128"; tags := ["vcf"; "23andMe"];
     download_url := "https://files.example/genome.vcf" |}.

Definition other_entry : entry :=
  {| source := "direct-sharing-31"; tags := [];
     download_url := "https://files.example/fitbit.json" |}.

Definition raw_entry : entry :=
  {| source := "direct-sharing-128"; tags := ["23andMe"];
     download_url := "https://files.example/genome.txt" |}.

Definition later_entry : entry :=
  {| source := "direct-sharing-128"; tags := [];
     download_url := "https://files.example/genome-v2.txt" |}.

(** A server that has the first 23andMe file only. *)
Definition example_get (url : string) : result string :=
  if decide (url = "https://files.example/genome.txt")
  then Ok "rs12913832"
  else Raise RequestException.


(** The first field of a line, as the loop of cell 2 sees it. *)
Definition first_field (line : string) : string :=
  default EmptyString (fields line !! 0%nat).

(** The line is a record of one of the three SNPs: the loop of cell 2
    neither skips it nor finds another name in its first field. *)
Definition relevant (line : string) : bool :=
  negb (skipped line) && bool_decide (first_field line ∈ targets).

(** The same line with white space before it and after it, such as an
    indentation or the two characters that end a line of a DOS file. *)
Definition padded (line line' : string) : Prop :=
  ∃ w1 w2, blank w1 = true ∧ blank w2 = true ∧ line' = w1 +:+ (line +:+ w2).

(** The records that a file has of one SNP agree on its genotype. *)
Definition consistent (lines : list string) : Prop :=
  ∀ l1 l2 k g1 g2,
    k ∈ targets → l1 ∈ lines → l2 ∈ lines →
    records l1 k g1 → records l2 k g2 → g1 = g2.

(** A line of the listing that cell 2 prints. *)
Definition listing_line (snp shown : string) : string :=
  snp +:+ ":" +:+ String tab EmptyString +:+ shown.

(** What the listing shows for a SNP, from the records of the file. *)
Definition shown_for (lines : list string) (k shown : string) : Prop :=
  (absent lines k → shown = "Unknown")
  ∧ ∀ g, last_record lines k g →
         shown = if decide (g = EmptyString) then "Unknown" else g.

(** A record whose genotype is left empty at the end of its line. *)
Definition open_record (snp chromosome position ending : string) : string :=
  snp +:+ String tab (chromosome +:+ String tab (position +:+ String tab ending)).

(** A file with an indented comment, a record of another SNP and an empty
    line among its records. *)
Definition noisy_lines : list string :=
  [ "  # indented comment";
    record_line "rs4477212" "1" "82154" "AA";
    record_line "rs12913832" "15" "1234" "AG";
    EmptyString;
    record_line "rs16891982" "5" "5678" "GG";
    record_line "rs12203592" "6" "9012" "CC" ].

(** The lines of the scenario as a DOS file has them, the first one
    indented. *)
Definition dos_lines : list string :=
  [ "  " +:+ (record_line "rs12913832" "15" "1234" "AG"
            +:+ String (ascii_of_nat 13) (String newline EmptyString));
    EmptyString +:+ (record_line "rs16891982" "5" "5678" "GG"
                   +:+ String (ascii_of_nat 13) (String newline EmptyString));
    EmptyString +:+ (record_line "rs12203592" "6" "9012" "CC"
                   +:+ String (ascii_of_nat 13) (String newline EmptyString));
    EmptyString +:+ ("#comment"
                   +:+ String (ascii_of_nat 13) (String newline EmptyString)) ].

(** A file whose record of rs12913832 has five fields, the fourth one
    empty. *)
Definition empty_genotype_lines : list string :=
  [ "rs12913832" +:+ String tab ("15" +:+ String tab ("1234" +:+ String tab
      (EmptyString +:+ String tab "note")));
    record_line "rs16891982" "5" "5678" "GG" ].

(** A file whose record of rs12913832 ends after the tab of its third
    field. *)
Definition open_lines : list string :=
  [ record_line "rs16891982" "5" "5678" "GG";
    open_record "rs12913832" "15" "1234" (String newline EmptyString);
    record_line "rs12203592" "6" "9012" "CC" ].


Section MoreSubjects.
Context {uid : Type} `{Countable uid}.

(** The last entry that the eye-color data set has of the subject. *)
Definition last_entry (users : list (eyecolor_item uid)) (u : uid)
           (item : eyecolor_item uid) : Prop :=
  ∃ before after,
    users = before ++ item :: after
    ∧ user_id item = u
    ∧ ∀ i, i ∈ after → user_id i ≠ u.

(** The last record of the subject that has observations begins with the
    genotype [g]; the records of the subject that follow it have none. *)
Definition last_observed (items : list (genotype_item uid)) (u : uid)
           (g : string) : Prop :=
  ∃ before item rest after,
    items = before ++ item :: after
    ∧ id item = u
    ∧ genotypes item = g :: rest
    ∧ ∀ i, i ∈ after → id i = u → genotypes i = [].

(** The distinct subjects of a list, in the order in which they are first
    met. *)
Fixpoint first_occurrences (us : list uid) : list uid :=
  match us with
  | [] => []
  | u :: us' =>
      u :: List.filter (fun x => negb (bool_decide (x = u))) (first_occurrences us')
  end.

(** The label that the index has for a subject: the one of the last
    entry of the subject, in lower case. *)
Definition label_of (users : list (eyecolor_item uid)) (u : uid) (c : string)
  : Prop :=
  ∃ item, last_entry users u item ∧ c = lower (variation item).
End MoreSubjects.

(** Data sets in which the subject 42 has two eye-color entries and two
    records at rs12913832, the subject 7 no observation at rs12203592,
    and the subject 9 the genotype of the subject 42. *)
Definition repeated_datasets : datasets string :=
  {| opensnp_eyecolors :=
       [ {| user_id := "42"; variation := "Blue" |};
         {| user_id := "7"; variation := "Green" |};
         {| user_id := "9"; variation := "Hazel" |};
         {| user_id := "42"; variation := "BROWN" |} ];
     opensnp_rs12203592 :=
       [ {| id := "9"; genotypes := ["CC"] |};
         {| id := "42"; genotypes := ["CC"] |};
         {| id := "7"; genotypes := [] |} ];
     opensnp_rs12913832 :=
       [ {| id := "42"; genotypes := ["AA"] |};
         {| id := "9"; genotypes := ["AG"] |};
         {| id := "42"; genotypes := ["AG"; "GG"] |};
         {| id := "42"; genotypes := [] |};
         {| id := "7"; genotypes := ["GG"] |} ];
     opensnp_rs16891982 :=
       [ {| id := "42"; genotypes := ["GG"] |};
         {| id := "9"; genotypes := ["GG"] |};
         {| id := "7"; genotypes := ["GG"] |} ] |}.

Definition repeated_index : gmap (string * string * string) (list string) :=
  <[("CC", "AG", "GG") := ["brown"; "hazel"]]> ∅.


(** A line that has no line feed in it. *)
Fixpoint one_line (s : string) : bool :=
  match s with
  | EmptyString => true
  | String c s' => negb (Ascii.eqb c newline) && one_line s'
  end.

End Notions.

Import Notions.

(** ** Cells 2, 4 and 5 in a row *)

Module Notebook.
Import Extractor IndexBuilder Reporter.

(** The notebook from cell 2 on, run on the lines of the file and on the
    data sets of cell 3: cell 5 reads the [your_genotype] of cell 2 and
    the [genotypes_to_color] of cell 4, and the first exception ends the
    run. *)
Definition analysis {uid : Type} `{Countable uid}
           (lines : list string) (ds : datasets uid) : result report :=
  let* your_genotype := your_genotype lines in
  let* genotypes_to_color := genotypes_to_color ds in
  cell5 genotypes_to_color your_genotype.

End Notebook.

(** * Properties *)

(** ** The Python preliminaries *)

Module PyFacts.

Lemma bind_ok {A B : Type} (r : result A) (k : A -> result B) (b : B) :
  bind r k = Ok b → ∃ a, r = Ok a ∧ k a = Ok b.
Proof. destruct r as [a|e]; simpl; [eauto | discriminate]. Qed.

Lemma for_each_app {A S : Type} (body : S -> A -> result S) xs ys s :
  for_each body (xs ++ ys) s = bind (for_each body xs s) (for_each body ys).
Proof.
  revert s. induction xs as [|x xs IH]; intros s; simpl; [done|].
  destruct (body s x) as [s'|e]; simpl; [apply IH | done].
Qed.

Lemma for_each_snoc {A S : Type} (body : S -> A -> result S) xs x s :
  for_each body (xs ++ [x]) s
  = bind (for_each body xs s) (fun s' => body s' x).
Proof.
  rewrite for_each_app. destruct (for_each body xs s) as [s'|e]; simpl.
  - by destruct (body s' x).
  - reflexivity.
Qed.

(** A loop whose body leaves the state as it is on the items that
    satisfy [p] may as well not see them. *)
Lemma for_each_skip {A S : Type} (body : S -> A -> result S) (p : A -> bool) xs :
  (∀ s x, p x = true → body s x = Ok s) →
  ∀ s, for_each body (List.filter (fun x => negb (p x)) xs) s = for_each body xs s.
Proof.
  intros Hskip. induction xs as [|x xs IH]; intros s; simpl; [done|].
  destruct (p x) eqn:Hp; simpl.
  - rewrite (Hskip s x Hp). simpl. apply IH.
  - destruct (body s x) as [s'|e]; simpl; [apply IH | done].
Qed.

(** *** Strings *)

Lemma lstrip_marker c s :
  isspace c = false → lstrip (String c s) = String c s.
Proof. intros Hc. simpl. by rewrite Hc. Qed.

Lemma rstrip_marker c s :
  isspace c = false → ∃ s', rstrip (String c s) = String c s'.
Proof.
  intros Hc. simpl. destruct (rstrip s) as [|c' r]; [|by eauto].
  rewrite Hc. by eauto.
Qed.

(** Stripping a line that begins with the marker leaves the marker
    first. *)
Lemma strip_comment line :
  startswith line "#" = true → startswith (strip line) "#" = true.
Proof.
  unfold startswith, strip. destruct line as [|c s]; simpl; [done|].
  destruct (Ascii.eqb_spec c "#") as [->|]; [|done]. intros _.
  change (isspace "#") with false. cbv iota.
  destruct (rstrip_marker "#"%char s eq_refl) as [s' ->]. simpl.
  by destruct s'.
Qed.

Lemma split_nonempty sep s : split sep s ≠ [].
Proof.
  destruct s as [|c s]; simpl; [done|].
  destruct (Ascii.eqb c sep); [done|]. by destruct (split sep s).
Qed.

End PyFacts.

(** ** Cell 2 *)

Module ExtractorFacts.
Import Extractor PyFacts.

Lemma tracks_init : tracks snps_init.
Proof.
  intros k. unfold snps_init, targets.
  rewrite !lookup_insert_is_Some, lookup_empty, !elem_of_cons, elem_of_nil.
  pose proof (@is_Some_None (option string)).
  destruct (decide (rs12913832 = k)), (decide (rs16891982 = k)),
    (decide (rs12203592 = k)); intuition.
Qed.

Lemma tracks_insert snps k v :
  tracks snps → is_Some (snps !! k) → tracks (<[k := v]> snps).
Proof.
  intros Ht Hk k'. rewrite lookup_insert_is_Some, <- (Ht k').
  destruct (decide (k = k')) as [->|]; intuition.
Qed.

Lemma fields_first line : ∃ k, fields line !! 0%nat = Some k.
Proof.
  unfold fields. pose proof (split_nonempty tab (strip line)) as Hne.
  destruct (split tab (strip line)); [done | by eauto].
Qed.

(** What one turn of the loop does. *)
Lemma scan_line_skipped snps line :
  skipped line = true → scan_line snps line = Ok snps.
Proof. unfold skipped, scan_line. by intros ->. Qed.

Lemma scan_line_other snps line k :
  names line k → snps !! k = None → scan_line snps line = Ok snps.
Proof.
  unfold names, skipped, fields, scan_line, index. intros [-> ->] Hk. simpl.
  rewrite bool_decide_eq_false_2; [done|]. rewrite Hk. by intros [? ?].
Qed.

Lemma scan_line_record snps line k g :
  records line k g → is_Some (snps !! k) →
  scan_line snps line = Ok (<[k := Some g]> snps).
Proof.
  unfold records, names, skipped, fields, scan_line, index.
  intros [[-> ->] ->] Hk. simpl. by rewrite bool_decide_eq_true_2.
Qed.

Lemma scan_line_short snps line k :
  names line k → is_Some (snps !! k) → fields line !! 3%nat = None →
  scan_line snps line = Raise IndexError.
Proof.
  unfold names, skipped, fields, scan_line, index.
  intros [-> ->] Hk ->. simpl. by rewrite bool_decide_eq_true_2.
Qed.

Lemma names_dec line k : names line k ∨ ¬ names line k.
Proof.
  unfold names. destruct (skipped line); [right; by intros [? _]|].
  destruct (decide (fields line !! 0%nat = Some k)); [by left|].
  right. by intros [_ ?].
Qed.

(** A line that is not a record of [k] leaves the entry of [k] as it
    is. *)
Lemma scan_line_absent snps snps' line k :
  ¬ names line k → scan_line snps line = Ok snps' → snps' !! k = snps !! k.
Proof.
  intros Hk Hs. destruct (skipped line) eqn:Hskip.
  { rewrite scan_line_skipped in Hs by done. by injection Hs as <-. }
  destruct (fields_first line) as [k' Hk'].
  assert (names line k') as Hn by done.
  destruct (snps !! k') as [v|] eqn:Hv.
  - destruct (fields line !! 3%nat) as [g|] eqn:Hg.
    + rewrite (scan_line_record snps line k' g) in Hs by (rewrite ?Hv; done).
      injection Hs as <-. apply lookup_insert_ne. by intros <-.
    + rewrite (scan_line_short snps line k') in Hs by (rewrite ?Hv; done).
      discriminate.
  - rewrite (scan_line_other snps line k') in Hs by done. by injection Hs as <-.
Qed.

Lemma for_each_scan_absent lines k :
  absent lines k →
  ∀ snps snps', for_each scan_line lines snps = Ok snps' →
                snps' !! k = snps !! k.
Proof.
  induction lines as [|line lines IH]; intros Habs snps snps' Hs; simpl in Hs.
  { by injection Hs as <-. }
  apply bind_ok in Hs as (snps1 & H1 & H2).
  rewrite (IH (fun l Hl => Habs l (list_elem_of_further _ _ _ Hl)) _ _ H2).
  apply (scan_line_absent _ _ line); [|done]. apply Habs, list_elem_of_here.
Qed.

(** On a well-formed file the loop runs to its end. *)
Lemma for_each_scan_total lines :
  well_formed lines →
  ∀ snps, tracks snps →
          ∃ snps', for_each scan_line lines snps = Ok snps' ∧ tracks snps'.
Proof.
  induction lines as [|line lines IH]; intros Hwf snps Ht; simpl; [by eauto|].
  assert (well_formed lines) as Hwf'.
  { intros l k Hl. apply Hwf. by apply list_elem_of_further. }
  destruct (skipped line) eqn:Hskip.
  { rewrite scan_line_skipped by done. simpl. by apply IH. }
  destruct (fields_first line) as [k Hk].
  assert (names line k) as Hn by done.
  destruct (snps !! k) as [v|] eqn:Hv.
  - assert (k ∈ targets) as Hin by (apply Ht; rewrite Hv; done).
    pose proof (Hwf line k (list_elem_of_here _ _) Hin Hn) as Hlen.
    destruct (lookup_lt_is_Some_2 (fields line) 3) as [g Hg]; [lia|].
    rewrite (scan_line_record snps line k g) by (rewrite ?Hv; done). simpl.
    apply IH; [done|]. apply tracks_insert; [done | by rewrite Hv].
  - rewrite (scan_line_other snps line k) by done. simpl. by apply IH.
Qed.

(** The last record of a SNP decides its entry. *)
Lemma scan_last_record lines k g :
  well_formed lines → k ∈ targets → last_record lines k g →
  ∃ snps, scan lines = Ok snps ∧ tracks snps ∧ snps !! k = Some (Some g).
Proof.
  intros Hwf Hk (before & line & after & -> & Hrec & Hafter).
  unfold scan. rewrite for_each_app.
  destruct (for_each_scan_total before) with (snps := snps_init)
    as (s1 & -> & Ht1); [|apply tracks_init|].
  { intros l k' Hl. apply Hwf, elem_of_app. by left. }
  simpl. rewrite (scan_line_record s1 line k g) by (done || by apply Ht1).
  simpl.
  destruct (for_each_scan_total after) with (snps := <[k := Some g]> s1)
    as (s2 & Hs2 & Ht2).
  { intros l k' Hl. apply Hwf, elem_of_app. right. by apply list_elem_of_further. }
  { apply tracks_insert; [done | by apply Ht1]. }
  exists s2. split; [done|]. split; [done|].
  rewrite (for_each_scan_absent after k Hafter _ _ Hs2).
  apply lookup_insert_eq.
Qed.

Lemma scan_absent lines k :
  well_formed lines → k ∈ targets → absent lines k →
  ∃ snps, scan lines = Ok snps ∧ tracks snps ∧ snps !! k = Some None.
Proof.
  intros Hwf Hk Habs. unfold scan.
  destruct (for_each_scan_total lines Hwf snps_init tracks_init) as (s & Hs & Ht).
  exists s. split; [done|]. split; [done|].
  rewrite (for_each_scan_absent lines k Habs _ _ Hs).
  unfold snps_init, targets in *.
  rewrite !elem_of_cons, elem_of_nil in Hk.
  destruct Hk as [->|[->|[->|[]]]]; by vm_compute.
Qed.

(** The rest of the cell, once the loop has run. *)
Lemma cell2_after_scan lines snps :
  scan lines = Ok snps → tracks snps →
  ∃ t, your_genotype lines = Ok t
       ∧ ∀ k v, k ∈ targets → snps !! k = Some v → component k t = format v.
Proof.
  intros Hs Ht. unfold your_genotype, cell2. rewrite Hs. simpl.
  destruct (proj2 (Ht rs12913832)) as [v1 H1]; [set_solver|].
  destruct (proj2 (Ht rs16891982)) as [v2 H2]; [set_solver|].
  destruct (proj2 (Ht rs12203592)) as [v3 H3]; [set_solver|].
  unfold report_line, genotype_of, getitem. rewrite H1, H2, H3. simpl.
  eexists. split; [done|]. intros k v Hk Hv.
  unfold targets in Hk. rewrite !elem_of_cons, elem_of_nil in Hk.
  destruct Hk as [->|[->|[->|[]]]];
    [rewrite H1 in Hv | rewrite H2 in Hv | rewrite H3 in Hv];
    injection Hv as <-; reflexivity.
Qed.

(** A record of one of the three SNPs that is short of a genotype ends
    the loop with [IndexError]. *)
Lemma scan_short_record before line after k :
  well_formed before → k ∈ targets → names line k →
  fields line !! 3%nat = None →
  scan (before ++ line :: after) = Raise IndexError.
Proof.
  intros Hwf Hk Hn Hshort. unfold scan. rewrite for_each_app.
  destruct (for_each_scan_total before Hwf snps_init tracks_init) as (s1 & -> & Ht1).
  simpl. rewrite (scan_line_short s1 line k); [done..| |done]. by apply Ht1.
Qed.

(** *** The lines of a 23andMe file are well formed *)

Lemma append_nil (s : string) : EmptyString +:+ s = s.
Proof. reflexivity. Qed.

Lemma append_cons c (a s : string) : String c a +:+ s = String c (a +:+ s).
Proof. reflexivity. Qed.

Lemma append_assoc (a b c : string) : (a +:+ b) +:+ c = a +:+ (b +:+ c).
Proof.
  induction a as [|x a IH]; [done|]. by rewrite !append_cons, IH.
Qed.

Lemma rstrip_blank w : blank w = true → rstrip w = EmptyString.
Proof.
  induction w as [|c w IH]; simpl; [done|].
  intros [Hc Hw]%andb_true_iff. by rewrite (IH Hw), Hc.
Qed.

Lemma rstrip_append_blank s w : blank w = true → rstrip (s +:+ w) = rstrip s.
Proof.
  intros Hw. induction s as [|c s IH].
  - rewrite append_nil. by apply rstrip_blank.
  - rewrite append_cons. simpl. by rewrite IH.
Qed.

Lemma rstrip_plain d : plain d → rstrip d = d.
Proof.
  intros [Hne Hd]. induction d as [|c d IH]; [done|]. simpl in *.
  apply andb_true_iff in Hd as [Hc Hd]. apply negb_true_iff in Hc.
  destruct d as [|c' d]; [by rewrite Hc|].
  by rewrite IH.
Qed.

Lemma rstrip_append_plain s d : plain d → rstrip (s +:+ d) = s +:+ d.
Proof.
  intros Hd. induction s as [|c s IH].
  - rewrite append_nil. by apply rstrip_plain.
  - rewrite append_cons. simpl. rewrite IH. destruct (s +:+ d) eqn:Heq; [|done].
    destruct Hd as [Hne _]. destruct s; [|by rewrite append_cons in Heq].
    by rewrite append_nil in Heq.
Qed.

Lemma lstrip_plain a s : plain a → lstrip (a +:+ s) = a +:+ s.
Proof.
  intros [Hne Ha]. destruct a as [|c a]; [done|]. rewrite append_cons. simpl in *.
  apply andb_true_iff in Ha as [Hc _]. apply negb_true_iff in Hc. by rewrite Hc.
Qed.

Lemma solid_not_tab c : isspace c = false → Ascii.eqb c tab = false.
Proof. destruct (Ascii.eqb_spec c tab) as [->|]; [by vm_compute | done]. Qed.

Lemma split_solid d : solid d = true → split tab d = [d].
Proof.
  induction d as [|c d IH]; simpl; [done|].
  intros [Hc%negb_true_iff Hd]%andb_true_iff.
  by rewrite (IH Hd), (solid_not_tab c Hc).
Qed.

Lemma split_solid_tab a s :
  solid a = true → split tab (a +:+ String tab s) = a :: split tab s.
Proof.
  induction a as [|c a IH]; [done|]. rewrite append_cons. simpl.
  intros [Hc%negb_true_iff Ha]%andb_true_iff.
  by rewrite (IH Ha), (solid_not_tab c Hc).
Qed.

(** The loop sees the four fields of a record, whatever white space ends
    its line. *)
Lemma fields_record_line a b c d ending :
  plain a → plain b → plain c → plain d → blank ending = true →
  fields (record_line a b c d +:+ ending) = [a; b; c; d].
Proof.
  intros Ha Hb Hc Hd He. unfold fields, strip, record_line.
  rewrite append_assoc, (lstrip_plain a _ Ha), <- append_assoc.
  rewrite (rstrip_append_blank _ ending He).
  assert (a +:+ String tab (b +:+ String tab (c +:+ String tab d))
          = (a +:+ String tab (b +:+ String tab (c +:+ String tab EmptyString))) +:+ d)
    as Hsplit.
  { by rewrite !append_assoc, !append_cons, !append_assoc, !append_cons,
      !append_assoc, !append_cons, append_nil. }
  rewrite Hsplit at 1. rewrite rstrip_append_plain, <- Hsplit by done.
  rewrite (split_solid_tab a), (split_solid_tab b), (split_solid_tab c),
    (split_solid d); [done | apply Hd | apply Hc | apply Hb | apply Ha].
Qed.

Lemma file_lines_well_formed lines :
  (∀ line, line ∈ lines → file_line line) → well_formed lines.
Proof.
  intros Hfile line k Hline _ [Hskip _].
  destruct (Hfile line Hline)
    as [Hcomment | (a & b & c & d & ending & Ha & Hb & Hc & Hd & He & ->)].
  - unfold skipped in Hskip. by rewrite (strip_comment line Hcomment) in Hskip.
  - by rewrite fields_record_line.
Qed.

End ExtractorFacts.

Module ExtractorSpec.
Import Extractor PyFacts ExtractorFacts.

(** C9.  The lines that begin with the comment marker ['#'] are skipped
    and have no influence on what cell 2 extracts: the dictionary
    [snps], the printed listing and [your_genotype] are the ones of the
    same file with its comment lines removed, whether the cell ends
    normally or raises. *)
Theorem comment_lines_never_influence (lines : list string) :
  let without := List.filter (fun line => negb (is_comment line)) lines in
  scan without = scan lines
  ∧ cell2 without = cell2 lines
  ∧ your_genotype without = your_genotype lines.
Proof.
  assert (scan (List.filter (fun line => negb (is_comment line)) lines)
          = scan lines) as Hscan.
  { unfold scan. apply for_each_skip. intros snps line Hc.
    apply scan_line_skipped. unfold skipped. by apply strip_comment. }
  simpl. unfold your_genotype, cell2. by rewrite Hscan.
Qed.

(** C8.  When a SNP of the three is recorded on several lines of a
    well-formed file, the record that comes last decides: [snps] and
    [your_genotype] hold its genotype. *)
Theorem last_occurrence_wins (lines : list string) (k g : string) :
  well_formed lines → k ∈ targets → last_record lines k g →
  ∃ snps t,
    scan lines = Ok snps ∧ snps !! k = Some (Some g)
    ∧ your_genotype lines = Ok t ∧ component k t = g.
Proof.
  intros Hwf Hk Hlast.
  destruct (scan_last_record lines k g Hwf Hk Hlast) as (snps & Hs & Ht & Hg).
  destruct (cell2_after_scan lines snps Hs Ht) as (t & Hy & Hc).
  exists snps, t. repeat split; [done..|]. by rewrite (Hc k (Some g)).
Qed.

(** C4.  When a SNP of the three is on no record of a well-formed file,
    [your_genotype] holds at its position the text of [None], the
    marker of a genotype that is not known, and at the position of each
    other SNP the genotype of the last record of that SNP. *)
Theorem missing_identifier_is_marked (lines : list string) (k : string) :
  well_formed lines → k ∈ targets → absent lines k →
  ∃ t, your_genotype lines = Ok t
       ∧ component k t = format None
       ∧ ∀ k' g, k' ∈ targets → k' ≠ k → last_record lines k' g →
                 component k' t = g.
Proof.
  intros Hwf Hk Habs.
  destruct (scan_absent lines k Hwf Hk Habs) as (snps & Hs & Ht & Hnone).
  destruct (cell2_after_scan lines snps Hs Ht) as (t & Hy & Hc).
  exists t. split; [done|]. split; [by apply Hc|].
  intros k' g Hk' _ Hlast.
  destruct (scan_last_record lines k' g Hwf Hk' Hlast) as (snps' & Hs' & _ & Hg).
  rewrite Hs in Hs'. injection Hs' as <-. by rewrite (Hc k' (Some g)).
Qed.

(** C3.  The file of the scenario, with its four lines in any order,
    gives the tuple [("CC", "AG", "GG")], from the list of its lines as
    from its text read line by line. *)
Theorem scenario_tuple (lines : list string) :
  Permutation scenario_lines lines →
  your_genotype lines = Ok ("CC", "AG", "GG")
  ∧ your_genotype (file_lines (unlines lines)) = Ok ("CC", "AG", "GG").
Proof.
  intros Hp.
  pose proof (Permutation_length Hp) as Hlen.
  assert (NoDup lines) as Hnd.
  { rewrite <- Hp. apply (bool_decide_unpack (NoDup scenario_lines)).
    by vm_compute. }
  assert (∀ x, In x lines → In x scenario_lines) as Hin.
  { intros x Hx. apply (Permutation_in x (Permutation_sym Hp) Hx). }
  destruct lines as [|a [|b [|c [|d [|]]]]]; try discriminate Hlen.
  assert (a ≠ b ∧ a ≠ c ∧ a ≠ d ∧ b ≠ c ∧ b ≠ d ∧ c ≠ d)
    as (Hab & Hac & Had & Hbc & Hbd & Hcd).
  { rewrite !NoDup_cons, !not_elem_of_cons in Hnd. tauto. }
  assert (In a scenario_lines) as Ha by (apply Hin; simpl; tauto).
  assert (In b scenario_lines) as Hb by (apply Hin; simpl; tauto).
  assert (In c scenario_lines) as Hc by (apply Hin; simpl; tauto).
  assert (In d scenario_lines) as Hd by (apply Hin; simpl; tauto).
  clear Hp Hlen Hnd Hin. vm_compute in Ha, Hb, Hc, Hd.
  destruct Ha as [<-|[<-|[<-|[<-|[]]]]];
    destruct Hb as [<-|[<-|[<-|[<-|[]]]]];
    try (exfalso; apply Hab; reflexivity);
    destruct Hc as [<-|[<-|[<-|[<-|[]]]]];
    try (exfalso; apply Hac; reflexivity);
    try (exfalso; apply Hbc; reflexivity);
    destruct Hd as [<-|[<-|[<-|[<-|[]]]]];
    try (exfalso; apply Had; reflexivity);
    try (exfalso; apply Hbd; reflexivity);
    try (exfalso; apply Hcd; reflexivity);
    split; vm_compute; reflexivity.
Qed.

(** Going through the lines of a concrete file. *)
Ltac each_line :=
  unfold Examples.repeated_lines, Examples.partial_lines in *;
  repeat match goal with
    | H : _ ∈ _ :: _ |- _ => apply elem_of_cons in H as [->|H]
    | H : _ ∈ [] |- _ => by apply elem_of_nil in H
    end.

Ltac check_well_formed :=
  let Hline := fresh "Hline" in let Hn := fresh "Hnames" in
  intros ? ? Hline _ Hn; each_line;
  first [ vm_compute; lia
        | destruct Hn as [Hn _]; vm_compute in Hn; discriminate Hn ].

Ltac check_not_named :=
  let Hline := fresh "Hline" in let Hn := fresh "Hnames" in
  intros ? Hline Hn; each_line;
  first [ destruct Hn as [Hn _]; vm_compute in Hn; discriminate Hn
        | destruct Hn as [_ Hn]; vm_compute in Hn; discriminate Hn ].

Lemma last_occurrence_wins_witness :
  ∃ snps t,
    scan Examples.repeated_lines = Ok snps
    ∧ snps !! "rs12913832" = Some (Some "AG")
    ∧ your_genotype Examples.repeated_lines = Ok t
    ∧ component "rs12913832" t = "AG".
Proof.
  apply (last_occurrence_wins Examples.repeated_lines "rs12913832" "AG").
  - check_well_formed.
  - by vm_compute; left.
  - exists [record_line "rs12913832" "15" "1234" "AA"; "#comment"],
      (record_line "rs12913832" "15" "1234" "AG"),
      [record_line "rs16891982" "5" "5678" "GG"].
    split; [reflexivity|]. split; [by vm_compute | check_not_named].
Defined.

Lemma missing_identifier_is_marked_witness :
  ∃ t, your_genotype Examples.partial_lines = Ok t
       ∧ component "rs12203592" t = "None"
       ∧ ∀ k' g, k' ∈ targets → k' ≠ "rs12203592" →
                 last_record Examples.partial_lines k' g →
                 component k' t = g.
Proof.
  apply (missing_identifier_is_marked Examples.partial_lines "rs12203592").
  - check_well_formed.
  - by vm_compute; right; right; left.
  - check_not_named.
Defined.

Lemma scenario_tuple_witness :
  your_genotype Examples.shuffled_lines = Ok ("CC", "AG", "GG")
  ∧ your_genotype (file_lines (unlines Examples.shuffled_lines))
    = Ok ("CC", "AG", "GG").
Proof.
  apply (scenario_tuple Examples.shuffled_lines).
  apply (bool_decide_unpack (scenario_lines ≡ₚ Examples.shuffled_lines)).
  vm_compute. reflexivity.
Defined.

(** The tuples of the two example files. *)
Example partial_lines_tuple :
  cell2 Examples.partial_lines
  = Ok ([ "rs12913832:" +:+ String tab "AG";
          "rs16891982:" +:+ String tab "GG";
          "rs12203592:" +:+ String tab "Unknown" ],
        ("None", "AG", "GG")).
Proof. reflexivity. Qed.

Example repeated_lines_tuple :
  your_genotype Examples.repeated_lines = Ok ("None", "AG", "GG").
Proof. reflexivity. Qed.

End ExtractorSpec.

(** ** Cell 1 *)

Module DownloadSpec.
Import Download.

(** C2.  When no entry of the member qualifies, cell 1 prints the
    message that tells how to add the data and then goes on to the
    download, where reading the unbound [file_url_23andme] raises
    [NameError]: the cell does not end quietly. *)
Theorem no_file_then_name_error
        (requests_get : string -> result string) (data : list entry) :
  file_url_23andme data = None →
  cell1 requests_get data = ([msg_checking; msg_sorry], Raise NameError).
Proof. intros Hnone. unfold cell1. by rewrite Hnone. Qed.

Lemma no_file_then_name_error_witness :
  cell1 (fun _ => Ok "content") [] = ([msg_checking; msg_sorry], Raise NameError).
Proof. apply (no_file_then_name_error (fun _ => Ok "content") []). reflexivity. Defined.

End DownloadSpec.

(** ** Sorting and tallying *)

Module SortFacts.

Section Sorted.
Context {A : Type} (key : A -> Z).

Lemma insert_reverse_perm x l : insert_reverse key x l ≡ₚ x :: l.
Proof.
  induction l as [|y l IH]; simpl; [done|].
  destruct (key y <=? key x); [done|]. rewrite IH. apply Permutation_swap.
Qed.

Lemma sorted_reverse_perm l : sorted_reverse key l ≡ₚ l.
Proof.
  induction l as [|x l IH]; simpl; [done|].
  by rewrite insert_reverse_perm, IH.
Qed.

Lemma insert_reverse_descending x l :
  descending key l → descending key (insert_reverse key x l).
Proof.
  induction l as [|y l IH]; simpl; intros Hd.
  { split; [|done]. intros y Hy. by apply elem_of_nil in Hy. }
  destruct Hd as [Hy Hd]. destruct (Z.leb_spec (key y) (key x)) as [Hle|Hlt].
  - simpl. split; [|done]. intros z Hz. apply elem_of_cons in Hz as [->|Hz]; [done|].
    specialize (Hy z Hz). lia.
  - simpl. split; [|by apply IH]. intros z Hz.
    rewrite insert_reverse_perm in Hz.
    apply elem_of_cons in Hz as [->|Hz]; [lia | by apply Hy].
Qed.

Lemma sorted_reverse_descending l : descending key (sorted_reverse key l).
Proof.
  induction l as [|x l IH]; simpl; [done|]. by apply insert_reverse_descending.
Qed.

(** An item is inserted before the items that have its key. *)
Lemma keyed_insert_reverse n x l :
  keyed key n (insert_reverse key x l)
  = if key x =? n then x :: keyed key n l else keyed key n l.
Proof.
  unfold keyed. induction l as [|y l IH]; simpl; [done|].
  destruct (Z.leb_spec (key y) (key x)) as [Hle|Hlt]; simpl; [done|].
  rewrite IH. destruct (Z.eqb_spec (key x) n) as [Hx|Hx]; [|done].
  destruct (Z.eqb_spec (key y) n) as [Hy|Hy]; [lia | done].
Qed.

(** The sort is stable: the items that have one key keep their
    order. *)
Lemma keyed_sorted_reverse n l :
  keyed key n (sorted_reverse key l) = keyed key n l.
Proof.
  induction l as [|x l IH]; simpl; [done|].
  rewrite keyed_insert_reverse, IH. unfold keyed. simpl.
  by destruct (key x =? n).
Qed.

Lemma keyed_elem n x l : x ∈ keyed key n l ↔ x ∈ l ∧ key x = n.
Proof.
  unfold keyed. rewrite !list_elem_of_In, filter_In, Z.eqb_eq. done.
Qed.

(** Two lists whose keys never increase and that agree on the items
    of every key are the same list. *)
Lemma descending_unique l1 :
  ∀ l2, descending key l1 → descending key l2 →
        (∀ n, keyed key n l1 = keyed key n l2) → l1 = l2.
Proof.
  induction l1 as [|x l1 IH]; intros [|y l2] Hd1 Hd2 Heq.
  - done.
  - specialize (Heq (key y)). unfold keyed in Heq. simpl in Heq.
    by rewrite Z.eqb_refl in Heq.
  - specialize (Heq (key x)). unfold keyed in Heq. simpl in Heq.
    by rewrite Z.eqb_refl in Heq.
  - destruct Hd1 as [Hx Hd1], Hd2 as [Hy Hd2].
    assert (key x = key y) as Hk.
    { assert (x ∈ y :: l2) as Hx2.
      { apply (keyed_elem (key x)). rewrite <- Heq. apply keyed_elem.
        split; [apply list_elem_of_here | done]. }
      assert (y ∈ x :: l1) as Hy1.
      { apply (keyed_elem (key y)). rewrite Heq. apply keyed_elem.
        split; [apply list_elem_of_here | done]. }
      apply elem_of_cons in Hx2 as [->|Hx2]; [done|].
      apply elem_of_cons in Hy1 as [->|Hy1]; [done|].
      specialize (Hx y Hy1). specialize (Hy x Hx2). lia. }
    assert (x = y) as ->.
    { specialize (Heq (key x)). unfold keyed in Heq. simpl in Heq.
      rewrite <- Hk, Z.eqb_refl in Heq. congruence. }
    f_equal. apply IH; [done..|]. intros n. specialize (Heq n).
    unfold keyed in *. simpl in Heq.
    destruct (key y =? n); [congruence | done].
Qed.

(** The result of a stable sort is determined by its input. *)
Lemma sorted_reverse_unique l l' :
  descending key l' → (∀ n, keyed key n l' = keyed key n l) →
  l' = sorted_reverse key l.
Proof.
  intros Hd Heq. apply descending_unique; [done|apply sorted_reverse_descending|].
  intros n. by rewrite keyed_sorted_reverse.
Qed.
End Sorted.

Lemma sum_perm (l1 l2 : list Z) : l1 ≡ₚ l2 → sum l1 = sum l2.
Proof.
  unfold sum. induction 1; simpl; lia.
Qed.

End SortFacts.

Module TallyFacts.
Import Reporter SortFacts.

(** *** The labels in the order in which they are first met *)

Lemma first_seen_elem colors x : x ∈ first_seen colors ↔ x ∈ colors.
Proof.
  induction colors as [|c colors IH]; simpl; [done|].
  rewrite !elem_of_cons, list_elem_of_In, filter_In, <- list_elem_of_In, IH.
  rewrite negb_true_iff, bool_decide_eq_false.
  destruct (decide (x = c)); intuition.
Qed.

Lemma first_seen_NoDup colors : NoDup (first_seen colors).
Proof.
  induction colors as [|c colors IH]; simpl; [constructor|].
  apply NoDup_cons. split.
  - rewrite list_elem_of_In, filter_In, negb_true_iff, bool_decide_eq_false.
    by intros [_ ?].
  - apply NoDup_ListNoDup, List.NoDup_filter, NoDup_ListNoDup, IH.
Qed.

Lemma first_seen_snoc colors c :
  first_seen (colors ++ [c])
  = if decide (c ∈ colors) then first_seen colors else first_seen colors ++ [c].
Proof.
  induction colors as [|x colors IH].
  { rewrite decide_False; [done | apply not_elem_of_nil]. }
  cbn [app first_seen]. rewrite IH.
  destruct (decide (c ∈ colors)) as [Hin|Hin].
  - rewrite decide_True; [done | by apply list_elem_of_further].
  - rewrite List.filter_app. cbn [List.filter].
    destruct (decide (c = x)) as [->|Hne].
    + rewrite bool_decide_eq_true_2 by done. cbn [negb]. rewrite app_nil_r.
      rewrite decide_True; [done | apply list_elem_of_here].
    + rewrite bool_decide_eq_false_2 by done. cbn [negb].
      rewrite decide_False; [done|]. rewrite elem_of_cons. intuition.
Qed.

Lemma occurrences_snoc colors c x :
  occurrences (colors ++ [c]) x
  = occurrences colors x + (if decide (c = x) then 1 else 0).
Proof.
  unfold occurrences. rewrite List.filter_app, length_app. simpl.
  destruct (decide (c = x)) as [->|Hne].
  - rewrite bool_decide_eq_true_2 by done. simpl. lia.
  - rewrite bool_decide_eq_false_2 by done. simpl. lia.
Qed.

Lemma occurrences_absent colors c : c ∉ colors → occurrences colors c = 0.
Proof.
  unfold occurrences. induction colors as [|y colors IH]; intros Hc; [done|].
  apply not_elem_of_cons in Hc as [Hne Hc]. cbn [List.filter].
  rewrite bool_decide_eq_false_2 by (by intros ->). by apply IH.
Qed.

(** *** Reading and writing a dictionary that is given by a function *)

Lemma od_get_tabulate f keys c :
  od_get c (tabulate f keys) = if decide (c ∈ keys) then Some (f c) else None.
Proof.
  induction keys as [|x keys IH].
  { rewrite decide_False; [done | apply not_elem_of_nil]. }
  cbn [tabulate map od_get]. fold (tabulate f keys).
  destruct (decide (c = x)) as [->|Hne].
  - rewrite decide_True; [done | apply list_elem_of_here].
  - rewrite IH. destruct (decide (c ∈ keys)) as [Hin|Hin].
    + rewrite decide_True; [done | by apply list_elem_of_further].
    + rewrite decide_False; [done|]. rewrite elem_of_cons. intuition.
Qed.

Lemma tabulate_ext f f' keys :
  (∀ x, x ∈ keys → f x = f' x) → tabulate f keys = tabulate f' keys.
Proof.
  intros Hext. unfold tabulate. apply map_ext_in. intros x Hx.
  by rewrite Hext by (by apply list_elem_of_In).
Qed.

Lemma od_set_tabulate_new f f' keys c v :
  c ∉ keys → f' c = v → (∀ x, x ≠ c → f' x = f x) →
  od_set c v (tabulate f keys) = tabulate f' (keys ++ [c]).
Proof.
  intros Hc Hv Hext. induction keys as [|x keys IH]; simpl.
  { by rewrite Hv. }
  apply not_elem_of_cons in Hc as [Hne Hc].
  rewrite decide_False by done. rewrite (Hext x) by done. f_equal. by apply IH.
Qed.

Lemma od_set_tabulate_old f f' keys c v :
  NoDup keys → c ∈ keys → f' c = v → (∀ x, x ≠ c → f' x = f x) →
  od_set c v (tabulate f keys) = tabulate f' keys.
Proof.
  intros Hnd Hc Hv Hext. induction keys as [|x keys IH]; simpl.
  { by apply elem_of_nil in Hc. }
  apply NoDup_cons in Hnd as [Hx Hnd].
  destruct (decide (c = x)) as [->|Hne].
  - rewrite Hv. f_equal. apply tabulate_ext. intros y Hy. symmetry.
    apply Hext. by intros ->.
  - rewrite (Hext x) by done. f_equal. apply IH; [done|].
    apply elem_of_cons in Hc as [?|?]; done.
Qed.

Lemma tally_snoc colors c : tally (colors ++ [c]) = count_color (tally colors) c.
Proof. unfold tally. by rewrite fold_left_app. Qed.

(** The tally holds every label once, in the order in which the labels
    are first met, with the number of its occurrences. *)
Lemma tally_spec colors :
  tally colors = tabulate (occurrences colors) (first_seen colors).
Proof.
  induction colors as [|c colors IH] using rev_ind; [done|].
  rewrite tally_snoc, IH. unfold count_color.
  rewrite od_get_tabulate, first_seen_snoc.
  destruct (decide (c ∈ first_seen colors)) as [Hin|Hin].
  - rewrite decide_True by (by apply first_seen_elem).
    apply od_set_tabulate_old; [apply first_seen_NoDup | done | |].
    + rewrite occurrences_snoc, decide_True by done. done.
    + intros x Hx. rewrite occurrences_snoc, decide_False by done. lia.
  - rewrite decide_False by (by rewrite <- first_seen_elem).
    apply od_set_tabulate_new; [done | |].
    + rewrite occurrences_snoc, decide_True by done.
      rewrite occurrences_absent; [done | by rewrite <- first_seen_elem].
    + intros x Hx. rewrite occurrences_snoc, decide_False by done. lia.
Qed.

End TallyFacts.

(** ** Cell 5 *)

Module ReporterFacts.
Import Reporter PyFacts SortFacts TallyFacts.

Lemma sum_od_set (d : list (string * Z)) c v :
  sum (map snd (od_set c v d))
  = sum (map snd d) + v - default 0 (od_get c d).
Proof.
  induction d as [|[k n] d IH]; cbn [od_set od_get map]; [simpl; lia|].
  destruct (decide (c = k)) as [->|Hne]; simpl in *; lia.
Qed.

Lemma sum_count_color d c :
  sum (map snd (count_color d c)) = sum (map snd d) + 1.
Proof.
  unfold count_color. destruct (od_get c d) as [n|] eqn:Hget;
    rewrite sum_od_set, Hget; simpl; lia.
Qed.

(** The counts of a tally add up to the number of labels. *)
Lemma sum_tally colors : sum (map snd (tally colors)) = Z.of_nat (length colors).
Proof.
  induction colors as [|c colors IH] using rev_ind; [done|].
  rewrite tally_snoc, sum_count_color, IH, length_app. simpl. lia.
Qed.

Lemma sum_sorted_tally colors :
  sum (map snd (sorted_reverse snd (tally colors))) = Z.of_nat (length colors).
Proof.
  rewrite <- sum_tally. apply sum_perm, Permutation_map, sorted_reverse_perm.
Qed.

Lemma comprehension_share total counts :
  total ≠ 0 ∨ counts = [] →
  comprehension (share total) counts = Ok (shares total counts).
Proof.
  intros [Hne | ->]; [|done].
  induction counts as [|item counts IH]; [done|].
  cbn [comprehension]. rewrite IH. unfold share at 1, truediv.
  destruct (Z.eqb_spec total 0); [done|]. reflexivity.
Qed.

(** The cell runs to its end on every list of labels. *)
Lemma distribution_total colors :
  distribution colors
  = Ok {| color_counts := sorted_reverse snd (tally colors);
          color_count_sum := Z.of_nat (length colors);
          color_count_percentages :=
            shares (Z.of_nat (length colors)) (sorted_reverse snd (tally colors)) |}.
Proof.
  unfold distribution. rewrite sum_sorted_tally, comprehension_share; [done|].
  destruct colors; [by right | left; simpl; lia].
Qed.

Lemma total_share_shares total counts :
  total ≠ 0 →
  (total_share (shares total counts)
   == inject_Z (sum (map snd counts)) / inject_Z total)%Q.
Proof.
  intros Hne. unfold total_share.
  induction counts as [|item counts IH]; simpl.
  - unfold Qdiv. by rewrite Qmult_0_l.
  - rewrite IH, inject_Z_plus. unfold Qdiv. by rewrite Qmult_plus_distr_l.
Qed.

Lemma keyed_tabulate f n keys :
  keyed snd n (tabulate f keys)
  = tabulate f (List.filter (fun x => f x =? n) keys).
Proof.
  unfold keyed, tabulate. induction keys as [|x keys IH]; simpl; [done|].
  destruct (f x =? n); simpl; by rewrite IH.
Qed.

Lemma shares_labels total counts :
  map fst (shares total counts) = map fst counts.
Proof. unfold shares. rewrite map_map. done. Qed.

End ReporterFacts.

Module ReporterSpec.
Import Reporter PyFacts SortFacts TallyFacts ReporterFacts.

(** C1, as the notebook has it.  When [your_genotype] is not a key of
    the index, the lookup of cell 5 raises [KeyError]: no distribution
    and no total are produced. *)
Theorem absent_tuple_raises
        (genotypes_to_color : gmap (string * string * string) (list string))
        (your_genotype : string * string * string) :
  genotypes_to_color !! your_genotype = None →
  cell5 genotypes_to_color your_genotype = Raise KeyError.
Proof. intros Hnone. unfold cell5, getitem. by rewrite Hnone. Qed.

Lemma absent_tuple_raises_witness :
  cell5 ∅ ("CC", "AG", "GG") = Raise KeyError.
Proof. apply (absent_tuple_raises ∅ ("CC", "AG", "GG")). reflexivity. Defined.

(** C1, as the specification has it, fails on the empty index: cell 5
    gives no result there, let alone one with an empty distribution
    and the total 0. *)
Lemma absent_tuple_no_zero_match :
  ¬ ∃ r, cell5 ∅ ("CC", "AG", "GG") = Ok r
         ∧ color_count_percentages r = []
         ∧ color_count_sum r = 0.
Proof. intros (r & Hr & _). vm_compute in Hr. discriminate Hr. Qed.

(** C6.  When cell 5 gives a distribution for a positive number of
    matching subjects, its shares, taken as exact quotients, add up
    to 1. *)
Theorem shares_sum_to_one
        (genotypes_to_color : gmap (string * string * string) (list string))
        (your_genotype : string * string * string) (r : report) :
  cell5 genotypes_to_color your_genotype = Ok r →
  0 < color_count_sum r →
  (total_share (color_count_percentages r) == 1)%Q.
Proof.
  unfold cell5. intros Hr Hpos. apply bind_ok in Hr as (colors & _ & Hr).
  rewrite distribution_total in Hr. injection Hr as <-. simpl in *.
  assert (Z.of_nat (length colors) ≠ 0) as Hne by lia.
  rewrite (total_share_shares _ _ Hne), sum_sorted_tally.
  apply Qmult_inv_r. intros Hz. unfold Qeq in Hz. simpl in Hz. lia.
Qed.

Lemma shares_sum_to_one_witness :
  (total_share (color_count_percentages Examples.scenario_report) == 1)%Q.
Proof.
  apply (shares_sum_to_one Examples.scenario_index ("CC", "AG", "GG")
                           Examples.scenario_report).
  - reflexivity.
  - reflexivity.
Defined.

(** C7.  On every list of matching labels cell 5 gives a distribution
    whose labels are those of the sorted tally, in its order; the
    counts of the sorted tally never increase, and the labels that
    have one count stand, with that count, in the order in which the
    list first has them. *)
Theorem distribution_sorted_stable (colors : list string) :
  ∃ r, distribution colors = Ok r
       ∧ map fst (color_count_percentages r) = map fst (color_counts r)
       ∧ non_increasing (color_counts r)
       ∧ ∀ n, with_count n (color_counts r)
              = tabulate (occurrences colors) (first_seen_with n colors).
Proof.
  eexists. split; [apply distribution_total|]. simpl.
  split; [apply shares_labels|]. split; [apply sorted_reverse_descending|].
  intros n. unfold with_count, first_seen_with.
  by rewrite keyed_sorted_reverse, tally_spec, keyed_tabulate.
Qed.

End ReporterSpec.

(** ** Cell 4 *)

Module IndexFacts.
Import IndexBuilder PyFacts.

Section Dict.
Context {K V : Type} `{EqDecision K}.

Lemma od_get_od_set (d : list (K * V)) k k' v :
  od_get k (od_set k' v d) = if decide (k = k') then Some v else od_get k d.
Proof.
  induction d as [|[k0 v0] d IH]; cbn [od_set od_get].
  { by destruct (decide (k = k')). }
  destruct (decide (k' = k0)) as [->|Hne]; cbn [od_get].
  - by destruct (decide (k = k0)).
  - rewrite IH. destruct (decide (k = k0)) as [->|]; [|done].
    by rewrite decide_False.
Qed.

Lemma od_keys_od_set (d : list (K * V)) k v :
  od_keys (od_set k v d)
  = if decide (k ∈ od_keys d) then od_keys d else od_keys d ++ [k].
Proof.
  unfold od_keys. induction d as [|[k0 v0] d IH]; cbn [od_set map fst].
  { rewrite decide_False; [done | apply not_elem_of_nil]. }
  destruct (decide (k = k0)) as [->|Hne]; cbn [map fst].
  - rewrite decide_True; [done | apply list_elem_of_here].
  - rewrite IH. destruct (decide (k ∈ map fst d)) as [Hin|Hin].
    + rewrite decide_True; [done | by apply list_elem_of_further].
    + rewrite decide_False; [done|]. rewrite elem_of_cons. intuition.
Qed.

Lemma od_keys_od_set_NoDup (d : list (K * V)) k v :
  NoDup (od_keys d) → NoDup (od_keys (od_set k v d)).
Proof.
  intros Hnd. rewrite od_keys_od_set.
  destruct (decide (k ∈ od_keys d)) as [Hin|Hin]; [done|].
  apply NoDup_app. split; [done|]. split; [|apply NoDup_singleton].
  intros x Hx ->%list_elem_of_singleton. done.
Qed.

Lemma od_get_is_Some (d : list (K * V)) k :
  k ∈ od_keys d → is_Some (od_get k d).
Proof.
  unfold od_keys. induction d as [|[k0 v0] d IH]; cbn [od_get map fst].
  { by intros ?%elem_of_nil. }
  intros [->|Hin]%elem_of_cons.
  - by rewrite decide_True.
  - destruct (decide (k = k0)); [done | by apply IH].
Qed.
End Dict.

Section Builder.
Context {uid : Type} `{Countable uid}.

(** *** The four dictionaries *)

Lemma eyecolor_fold_NoDup (users : list (eyecolor_item uid)) :
  ∀ d, NoDup (od_keys d) →
       NoDup (od_keys (fold_left
                         (fun d item =>
                            od_set (user_id item) (lower (variation item)) d)
                         users d)).
Proof.
  induction users as [|item users IH]; intros d Hd; simpl; [done|].
  by apply IH, od_keys_od_set_NoDup.
Qed.

Lemma eyecolor_by_uid_NoDup (users : list (eyecolor_item uid)) :
  NoDup (od_keys (eyecolor_by_uid users)).
Proof. apply eyecolor_fold_NoDup. constructor. Qed.

Lemma eyecolor_fold_reports (users : list (eyecolor_item uid)) u c :
  ∀ d, od_get u (fold_left
                   (fun d item =>
                      od_set (user_id item) (lower (variation item)) d)
                   users d) = Some c →
       od_get u d = Some c ∨ reports users u c.
Proof.
  induction users as [|item users IH]; intros d Hget; simpl in Hget; [by left|].
  destruct (IH _ Hget) as [Hd | (item' & Hin & Hu & Hc)].
  - rewrite od_get_od_set in Hd. destruct (decide (u = user_id item)) as [->|].
    + right. exists item. split; [apply list_elem_of_here|]. split; congruence.
    + by left.
  - right. exists item'. split; [by apply list_elem_of_further | done].
Qed.

Lemma eyecolor_by_uid_reports (users : list (eyecolor_item uid)) u c :
  od_get u (eyecolor_by_uid users) = Some c → reports users u c.
Proof.
  intros Hget. by destruct (eyecolor_fold_reports users u c [] Hget).
Qed.

Lemma genotype_fold_observed (items : list (genotype_item uid)) u g :
  ∀ m : gmap uid string,
    fold_left (fun m item =>
                 match genotypes item with
                 | [] => m
                 | g :: _ => <[id item := g]> m
                 end) items m !! u = Some g →
    m !! u = Some g ∨ observed items u g.
Proof.
  induction items as [|item items IH]; intros m Hget; simpl in Hget; [by left|].
  destruct (IH _ Hget) as [Hm | (item' & rest & Hin & Hu & Hg)].
  - destruct (genotypes item) as [|g0 rest] eqn:Hgs; [by left|].
    rewrite lookup_insert in Hm. destruct (decide (id item = u)) as [Heq|]; [|by left].
    right. exists item, rest. split; [apply list_elem_of_here|].
    split; congruence.
  - right. exists item', rest. split; [by apply list_elem_of_further | done].
Qed.

Lemma genotype_by_uid_observed (items : list (genotype_item uid)) u g :
  genotype_by_uid items !! u = Some g → observed items u g.
Proof.
  intros Hget. destruct (genotype_fold_observed items u g ∅ Hget) as [Hm|]; [|done].
  by rewrite lookup_empty in Hm.
Qed.

(** *** The loop over the subjects *)

Context (e : list (uid * string)) (m1 m2 m3 : gmap uid string).

Lemma in_all_tuple u :
  in_all m1 m2 m3 u = true → ∃ t, tuple_of m1 m2 m3 u = Some t.
Proof.
  unfold in_all, tuple_of. rewrite !andb_true_iff, !bool_decide_eq_true.
  intros [[[a ->] [b ->]] [c ->]]. by eauto.
Qed.

Lemma members_snoc t us u :
  members m1 m2 m3 t (us ++ [u])
  = if decide (tuple_of m1 m2 m3 u = Some t)
    then members m1 m2 m3 t us ++ [u] else members m1 m2 m3 t us.
Proof.
  unfold members. rewrite List.filter_app. cbn [List.filter].
  destruct (decide (tuple_of m1 m2 m3 u = Some t)).
  - by rewrite bool_decide_eq_true_2.
  - rewrite bool_decide_eq_false_2 by done. apply app_nil_r.
Qed.

(** One turn of the loop, for a subject that the three genotype
    dictionaries and the dictionary of eye colors have. *)
Lemma add_subject_indexes idx us u t c :
  indexes e m1 m2 m3 idx us →
  tuple_of m1 m2 m3 u = Some t → od_get u e = Some c →
  ∃ idx', add_subject e m1 m2 m3 idx u = Ok idx'
          ∧ indexes e m1 m2 m3 idx' (us ++ [u]).
Proof.
  intros Hidx Ht Hc. unfold add_subject, getitem, od_getitem.
  unfold tuple_of in Ht.
  destruct (m1 !! u) as [a|] eqn:Ha; [|done].
  destruct (m2 !! u) as [b|] eqn:Hb; [|done].
  destruct (m3 !! u) as [c0|] eqn:Hc0; [|done].
  injection Ht as <-. cbn [bind format]. rewrite Hc. cbn [bind].
  assert (tuple_of m1 m2 m3 u = Some (a, b, c0)) as Htu.
  { unfold tuple_of. by rewrite Ha, Hb, Hc0. }
  pose proof (Hidx (a, b, c0)) as Hhere.
  destruct (idx !! (a, b, c0)) as [colors|] eqn:Hlook.
  - eexists. split; [done|]. intros t. rewrite members_snoc.
    destruct (decide ((a, b, c0) = t)) as [<-|Hne].
    + rewrite lookup_insert_eq, decide_True by done.
      destruct Hhere as [_ Hall]. split; [by destruct (members _ _ _ _ us)|].
      apply Forall2_app; [done|]. by constructor.
    + rewrite lookup_insert_ne, decide_False by congruence. apply Hidx.
  - eexists. split; [done|]. intros t. rewrite members_snoc.
    destruct (decide ((a, b, c0) = t)) as [<-|Hne].
    + rewrite lookup_insert_eq, decide_True, Hhere by done.
      split; [done|]. by constructor.
    + rewrite lookup_insert_ne, decide_False by congruence. apply Hidx.
Qed.

Lemma for_each_add_subject us :
  (∀ u, u ∈ us → in_all m1 m2 m3 u = true ∧ is_Some (od_get u e)) →
  ∃ idx, for_each (add_subject e m1 m2 m3) us ∅ = Ok idx
         ∧ indexes e m1 m2 m3 idx us.
Proof.
  induction us as [|u us IH] using rev_ind; intros Hus.
  { exists ∅. split; [done|]. intros t. by rewrite lookup_empty. }
  destruct IH as (idx & Hrun & Hidx).
  { intros u' Hu'. apply Hus, elem_of_app. by left. }
  destruct (Hus u) as [Hall [c Hc]]; [apply elem_of_app; right; apply list_elem_of_here|].
  destruct (in_all_tuple u Hall) as [t Ht].
  destruct (add_subject_indexes idx us u t c Hidx Ht Hc) as (idx' & Hadd & Hidx').
  exists idx'. split; [|done]. by rewrite for_each_snoc, Hrun.
Qed.
End Builder.

End IndexFacts.

Module IndexSpec.
Import IndexBuilder Reporter PyFacts IndexFacts ReporterFacts.

Section Builder.
Context {uid : Type} `{Countable uid}.

Lemma Forall2_with_left {A B : Type} (P : A -> B -> Prop) (Q : A -> Prop) l k :
  Forall2 P l k → (∀ x, x ∈ l → Q x) → Forall2 (fun x y => Q x ∧ P x y) l k.
Proof.
  induction 1 as [|x y l k HP _ IH]; intros HQ; constructor.
  - split; [apply HQ, list_elem_of_here | done].
  - apply IH. intros z Hz. by apply HQ, list_elem_of_further.
Qed.

Lemma Forall2_elem_left {A B : Type} (P : A -> B -> Prop) l k x :
  Forall2 P l k → x ∈ l → ∃ y, y ∈ k ∧ P x y.
Proof.
  induction 1 as [|x' y l k HP _ IH]; intros Hx.
  { by apply elem_of_nil in Hx. }
  apply elem_of_cons in Hx as [->|Hx].
  - exists y. split; [apply list_elem_of_here | done].
  - destruct (IH Hx) as (y' & Hy' & HP'). exists y'.
    split; [by apply list_elem_of_further | done].
Qed.

Lemma joint_uids_elem (e : list (uid * string)) (m1 m2 m3 : gmap uid string) u :
  u ∈ joint_uids e m1 m2 m3 →
  in_all m1 m2 m3 u = true ∧ is_Some (od_get u e).
Proof.
  unfold joint_uids. rewrite list_elem_of_In, filter_In, <- list_elem_of_In.
  intros [Hin Hall]. split; [done | by apply od_get_is_Some].
Qed.

(** The loop of cell 4 runs to its end, and leaves the index of the
    subjects of [joint_uids]. *)
Lemma genotypes_to_color_indexes (ds : datasets uid) :
  ∃ idx, genotypes_to_color ds = Ok idx
         ∧ indexes (eyecolor_by_uid (opensnp_eyecolors ds))
                   (genotype_by_uid (opensnp_rs12203592 ds))
                   (genotype_by_uid (opensnp_rs12913832 ds))
                   (genotype_by_uid (opensnp_rs16891982 ds))
                   idx
                   (joint_uids (eyecolor_by_uid (opensnp_eyecolors ds))
                               (genotype_by_uid (opensnp_rs12203592 ds))
                               (genotype_by_uid (opensnp_rs12913832 ds))
                               (genotype_by_uid (opensnp_rs16891982 ds))).
Proof.
  unfold genotypes_to_color. cbv zeta. apply for_each_add_subject.
  intros u. apply joint_uids_elem.
Qed.

Lemma genotypes_to_color_total (ds : datasets uid) :
  ∃ idx, genotypes_to_color ds = Ok idx.
Proof. destruct (genotypes_to_color_indexes ds) as (idx & Hidx & _). by eauto. Qed.

Lemma complete_not_missing (ds : datasets uid) t u c :
  complete ds t u c → ¬ missing ds u.
Proof.
  intros (Hr & H1 & H2 & H3) [Hm | [Hm | [Hm | Hm]]]; by eapply Hm.
Qed.

(** C5.  Every label of a bucket of the index is the label of a
    subject of its own who reports an eye color and has, in each of
    the three genotype data sets, a list of observations that is not
    empty and begins with the genotype of the bucket at that SNP; a
    subject who is missing from one of the four data sets is behind
    no label. *)
Theorem index_holds_complete_subjects
        (ds : datasets uid)
        (idx : gmap (string * string * string) (list string))
        (t : string * string * string) (colors : list string) :
  genotypes_to_color ds = Ok idx → idx !! t = Some colors →
  ∃ us : list uid,
    NoDup us
    ∧ Forall2 (complete ds t) us colors
    ∧ ∀ u, missing ds u → u ∉ us.
Proof.
  intros Hrun Hlook.
  destruct (genotypes_to_color_indexes ds) as (idx' & Hrun' & Hidx).
  rewrite Hrun in Hrun'. injection Hrun' as <-.
  specialize (Hidx t). rewrite Hlook in Hidx. destruct Hidx as [_ Hall].
  set (e := eyecolor_by_uid (opensnp_eyecolors ds)) in *.
  set (m1 := genotype_by_uid (opensnp_rs12203592 ds)) in *.
  set (m2 := genotype_by_uid (opensnp_rs12913832 ds)) in *.
  set (m3 := genotype_by_uid (opensnp_rs16891982 ds)) in *.
  set (us := members m1 m2 m3 t (joint_uids e m1 m2 m3)) in *.
  assert (Forall2 (complete ds t) us colors) as Hcomplete.
  { eapply Forall2_impl;
      [apply (Forall2_with_left _ (fun u => tuple_of m1 m2 m3 u = Some t) _ _ Hall)|].
    - intros u. unfold us, members.
      rewrite list_elem_of_In, filter_In, bool_decide_eq_true. by intros [_ ?].
    - intros u c [Ht Hc]. unfold tuple_of in Ht.
      destruct (m1 !! u) as [a|] eqn:Ha; [|done].
      destruct (m2 !! u) as [b|] eqn:Hb; [|done].
      destruct (m3 !! u) as [c0|] eqn:Hc0; [|done].
      injection Ht as <-. unfold complete. simpl.
      split; [by apply eyecolor_by_uid_reports|].
      repeat split; by apply genotype_by_uid_observed. }
  exists us. split; [|split; [done|]].
  - unfold us, members, joint_uids.
    apply NoDup_ListNoDup, List.NoDup_filter, List.NoDup_filter, NoDup_ListNoDup.
    apply eyecolor_by_uid_NoDup.
  - intros u Hmiss Hu.
    destruct (Forall2_elem_left _ _ _ _ Hcomplete Hu) as (c & _ & Hc).
    by apply (complete_not_missing ds t u c).
Qed.

(** C10.  Every key of the index that cell 4 builds has a list of
    labels that is not empty; on such a key cell 5 gives a result,
    whose total is the length of the list and is positive, so that
    no share divides by zero. *)
Theorem index_buckets_nonempty
        (ds : datasets uid)
        (idx : gmap (string * string * string) (list string))
        (t : string * string * string) (colors : list string) :
  genotypes_to_color ds = Ok idx → idx !! t = Some colors →
  colors ≠ []
  ∧ ∃ r, cell5 idx t = Ok r
         ∧ color_count_sum r = Z.of_nat (length colors)
         ∧ 0 < color_count_sum r.
Proof.
  intros Hrun Hlook.
  destruct (genotypes_to_color_indexes ds) as (idx' & Hrun' & Hidx).
  rewrite Hrun in Hrun'. injection Hrun' as <-.
  specialize (Hidx t). rewrite Hlook in Hidx. destruct Hidx as [Hne Hall].
  assert (colors ≠ []) as Hcolors.
  { intros ->. by apply Forall2_nil_inv_r in Hall. }
  split; [done|]. unfold cell5, getitem. rewrite Hlook. cbn [bind].
  rewrite distribution_total. eexists. split; [done|]. simpl.
  split; [done|]. destruct colors; [done | simpl; lia].
Qed.
End Builder.

Lemma index_holds_complete_subjects_witness :
  ∃ us : list string,
    NoDup us
    ∧ Forall2 (complete Examples.scenario_datasets ("CC", "AG", "GG")) us ["brown"]
    ∧ ∀ u, missing Examples.scenario_datasets u → u ∉ us.
Proof.
  apply (index_holds_complete_subjects
           Examples.scenario_datasets Examples.scenario_index
           ("CC", "AG", "GG") ["brown"]).
  - reflexivity.
  - reflexivity.
Defined.

Lemma index_buckets_nonempty_witness :
  ["brown"] ≠ []
  ∧ ∃ r, cell5 Examples.scenario_index ("CC", "AG", "GG") = Ok r
         ∧ color_count_sum r = Z.of_nat (length ["brown"])
         ∧ 0 < color_count_sum r.
Proof.
  apply (index_buckets_nonempty
           Examples.scenario_datasets Examples.scenario_index
           ("CC", "AG", "GG") ["brown"]).
  - reflexivity.
  - reflexivity.
Defined.

(** The scenario of the specification: the subject 42 alone has the
    genotype asked for, and the distribution is all brown. *)
Example scenario_distribution :
  (let* idx := genotypes_to_color Examples.scenario_datasets in
   cell5 idx ("CC", "AG", "GG"))
  = Ok Examples.scenario_report.
Proof. reflexivity. Qed.

End IndexSpec.

(** * Further properties *)

(** ** Cell 1 *)

Module DownloadMore.
Import Download.

Lemma file_url_first before e after :
  (∀ x, x ∈ before → qualifies x = false) → qualifies e = true →
  file_url_23andme (before ++ e :: after) = Some (download_url e).
Proof.
  intros Hbefore He. induction before as [|x before IH]; simpl.
  - by rewrite He.
  - rewrite (Hbefore x) by apply list_elem_of_here. apply IH.
    intros y Hy. by apply Hbefore, list_elem_of_further.
Qed.

(** X1.  The loop of cell 1 stops at the first entry that qualifies: the
    entries before it that do not qualify are passed over, and the entries
    after it are not looked at. *)
Theorem first_qualifying_entry_chosen (before : list entry) (e : entry)
        (after : list entry) :
  (∀ x, x ∈ before → qualifies x = false) → qualifies e = true →
  file_url_23andme (before ++ e :: after) = Some (download_url e).
Proof. apply file_url_first. Qed.

Lemma first_qualifying_entry_chosen_witness :
  file_url_23andme ([vcf_entry; other_entry] ++ raw_entry :: [later_entry])
  = Some "https://files.example/genome.txt".
Proof.
  apply (first_qualifying_entry_chosen [vcf_entry; other_entry] raw_entry
                                       [later_entry]).
  - intros x Hx. apply elem_of_cons in Hx as [->|Hx]; [reflexivity|].
    apply list_elem_of_singleton in Hx as ->. reflexivity.
  - reflexivity.
Defined.

(** X2.  The URL that cell 1 binds is the one of an entry of the member
    whose source is ["direct-sharing-128"] and whose tags do not have
    ["vcf"]: no file of another source and no VCF file is ever chosen. *)
Theorem chosen_url_qualifies (data : list entry) (url : string) :
  file_url_23andme data = Some url →
  ∃ e, e ∈ data
       ∧ source e = "direct-sharing-128"
       ∧ ("vcf" ∉ tags e)
       ∧ download_url e = url.
Proof.
  induction data as [|x data IH]; simpl; [done|].
  destruct (qualifies x) eqn:Hq.
  - intros [= <-]. exists x. split; [apply list_elem_of_here|].
    unfold qualifies in Hq. apply andb_true_iff in Hq as [Hs Ht].
    apply bool_decide_eq_true in Hs. apply negb_true_iff, bool_decide_eq_false in Ht.
    done.
  - intros Hurl. destruct (IH Hurl) as (e & He & Hrest).
    exists e. split; [by apply list_elem_of_further | done].
Qed.

Lemma chosen_url_qualifies_witness :
  ∃ e, e ∈ [vcf_entry; other_entry; raw_entry; later_entry]
       ∧ source e = "direct-sharing-128"
       ∧ ("vcf" ∉ tags e)
       ∧ download_url e = "https://files.example/genome.txt".
Proof.
  apply (chosen_url_qualifies [vcf_entry; other_entry; raw_entry; later_entry]).
  reflexivity.
Defined.

(** X3.  The name [file_url_23andme] stays unbound exactly when no entry
    of the member qualifies. *)
Theorem unbound_iff_none_qualifies (data : list entry) :
  file_url_23andme data = None ↔ ∀ e, e ∈ data → qualifies e = false.
Proof.
  induction data as [|x data IH]; simpl.
  - split; [|done]. intros _ e He. by apply elem_of_nil in He.
  - destruct (qualifies x) eqn:Hq.
    + split; [done|]. intros Hall.
      rewrite (Hall x) in Hq by apply list_elem_of_here. done.
    + rewrite IH. split.
      * intros Hall e He. apply elem_of_cons in He as [->|He]; [done | by apply Hall].
      * intros Hall e He. by apply Hall, list_elem_of_further.
Qed.

(** X4.  When an entry qualifies, cell 1 asks for the file of the first
    such entry and for no other: if the request gives a content, the cell
    prints its three messages and has that content; if the request
    raises, the cell ends with that exception after two messages. *)
Theorem cell1_downloads_first
        (requests_get : string -> result string)
        (before : list entry) (e : entry) (after : list entry) :
  (∀ x, x ∈ before → qualifies x = false) → qualifies e = true →
  cell1 requests_get (before ++ e :: after)
  = match requests_get (download_url e) with
    | Ok content => ([msg_checking; msg_great; msg_done], Ok content)
    | Raise ex => ([msg_checking; msg_great], Raise ex)
    end.
Proof.
  intros Hbefore He. unfold cell1. rewrite (file_url_first before e after Hbefore He).
  simpl. by destruct (requests_get (download_url e)).
Qed.

Lemma cell1_downloads_first_witness :
  cell1 example_get ([vcf_entry; other_entry] ++ raw_entry :: [later_entry])
  = ([msg_checking; msg_great; msg_done], Ok "rs12913832").
Proof.
  apply (cell1_downloads_first example_get [vcf_entry; other_entry] raw_entry
                               [later_entry]).
  - intros x Hx. apply elem_of_cons in Hx as [->|Hx]; [reflexivity|].
    apply list_elem_of_singleton in Hx as ->. reflexivity.
  - reflexivity.
Defined.

(** X5.  Whatever the entries and the server, cell 1 prints ["Done!"]
    exactly when it ends with a downloaded content; it never prints it
    before an exception. *)
Theorem done_printed_iff_downloaded
        (requests_get : string -> result string) (data : list entry) :
  msg_done ∈ fst (cell1 requests_get data)
  ↔ ∃ content, snd (cell1 requests_get data) = Ok content.
Proof.
  unfold cell1. destruct (file_url_23andme data) as [u|]; simpl.
  - destruct (requests_get u) as [content|ex]; simpl.
    + split; [by eauto|]. intros _. rewrite !elem_of_cons. do 2 right. by left.
    + split; [|by intros [? ?]]. rewrite !elem_of_cons, elem_of_nil.
      intros [Hd|[Hd|[]]]; vm_compute in Hd; discriminate Hd.
  - split; [|by intros [? ?]]. rewrite !elem_of_cons, elem_of_nil.
    intros [Hd|[Hd|[]]]; vm_compute in Hd; discriminate Hd.
Qed.

End DownloadMore.

(** ** Cell 2 *)

Module ExtractorMore.
Import Extractor PyFacts ExtractorFacts.

(** *** The keys of [snps] *)

Lemma scan_line_tracks snps snps' line :
  tracks snps → scan_line snps line = Ok snps' → tracks snps'.
Proof.
  intros Ht Hs. destruct (skipped line) eqn:Hskip.
  { rewrite scan_line_skipped in Hs by done. by injection Hs as <-. }
  destruct (fields_first line) as [k Hk].
  assert (names line k) as Hn by done.
  destruct (snps !! k) as [v|] eqn:Hv.
  - destruct (fields line !! 3%nat) as [g|] eqn:Hg.
    + rewrite (scan_line_record snps line k g) in Hs by (rewrite ?Hv; done).
      injection Hs as <-. apply tracks_insert; [done | by rewrite Hv].
    + rewrite (scan_line_short snps line k) in Hs by (rewrite ?Hv; done).
      discriminate.
  - rewrite (scan_line_other snps line k) in Hs by done. by injection Hs as <-.
Qed.

Lemma for_each_scan_tracks lines :
  ∀ snps snps', tracks snps → for_each scan_line lines snps = Ok snps' →
                tracks snps'.
Proof.
  induction lines as [|line lines IH]; intros snps snps' Ht Hs; simpl in Hs.
  { by injection Hs as <-. }
  apply bind_ok in Hs as (snps1 & H1 & H2).
  apply (IH snps1); [|done]. by apply (scan_line_tracks snps snps1 line).
Qed.

(** X6.  Whatever the file, the dictionary [snps] that the loop of cell 2
    leaves has the three SNPs as its keys and no other: a record of
    another SNP is never stored. *)
Theorem snps_keeps_its_keys (lines : list string)
        (snps : gmap string (option string)) :
  scan lines = Ok snps → ∀ k, is_Some (snps !! k) ↔ k ∈ targets.
Proof. intros Hs. apply (for_each_scan_tracks lines snps_init snps tracks_init Hs). Qed.

Lemma snps_keeps_its_keys_witness :
  is_Some ((<[rs12913832 := Some "AG"]>
              (<[rs16891982 := Some "GG"]>
                 (<[rs12203592 := Some "CC"]> ∅))
            : gmap string (option string)) !! "rs4477212")
  ↔ "rs4477212" ∈ targets.
Proof.
  apply (snps_keeps_its_keys noisy_lines
           (<[rs12913832 := Some "AG"]>
              (<[rs16891982 := Some "GG"]>
                 (<[rs12203592 := Some "CC"]> ∅)))).
  reflexivity.
Defined.

(** *** Lines that are not records of the three SNPs *)

Lemma for_each_skip_invariant {A S : Type} (body : S -> A -> result S)
      (p : A -> bool) (Inv : S -> Prop) xs :
  (∀ s s' x, Inv s → body s x = Ok s' → Inv s') →
  (∀ s x, Inv s → p x = false → body s x = Ok s) →
  ∀ s, Inv s → for_each body (List.filter p xs) s = for_each body xs s.
Proof.
  intros Hkeep Hskip. induction xs as [|x xs IH]; intros s Hs; simpl; [done|].
  destruct (p x) eqn:Hp; simpl.
  - destruct (body s x) as [s'|e] eqn:Hb; simpl; [|done].
    apply IH. by apply (Hkeep s s' x).
  - rewrite (Hskip s x Hs Hp). simpl. by apply IH.
Qed.

Lemma scan_line_irrelevant snps line :
  tracks snps → relevant line = false → scan_line snps line = Ok snps.
Proof.
  intros Ht Hrel. unfold relevant in Hrel.
  destruct (skipped line) eqn:Hskip; [by apply scan_line_skipped|].
  simpl in Hrel. apply bool_decide_eq_false in Hrel.
  destruct (fields_first line) as [k Hk].
  apply (scan_line_other snps line k); [done|].
  unfold first_field in Hrel. rewrite Hk in Hrel. simpl in Hrel.
  destruct (snps !! k) eqn:Hv; [|done].
  exfalso. apply Hrel, Ht. by rewrite Hv.
Qed.

(** X7.  Only the records of the three SNPs count: the lines that the
    loop skips after stripping them, indented comments among them, and
    the records of other SNPs can be removed from the file without any
    change to what cell 2 prints and extracts, or to the exception that
    ends it. *)
Theorem only_target_records_count (lines : list string) :
  cell2 (List.filter relevant lines) = cell2 lines.
Proof.
  unfold cell2, scan.
  by rewrite (for_each_skip_invariant scan_line relevant tracks lines
                scan_line_tracks scan_line_irrelevant snps_init tracks_init).
Qed.

(** *** White space around a line *)

Lemma lstrip_blank w : blank w = true → lstrip w = EmptyString.
Proof.
  induction w as [|c w IH]; simpl; [done|].
  intros [Hc Hw]%andb_true_iff. by rewrite Hc, IH.
Qed.

Lemma lstrip_blank_append w s : blank w = true → lstrip (w +:+ s) = lstrip s.
Proof.
  induction w as [|c w IH]; [done|]. rewrite append_cons. simpl.
  intros [Hc Hw]%andb_true_iff. by rewrite Hc, IH.
Qed.

Lemma strip_append_blank s w : blank w = true → strip (s +:+ w) = strip s.
Proof.
  intros Hw. unfold strip. induction s as [|c s IH].
  - rewrite append_nil. by rewrite (lstrip_blank w Hw).
  - rewrite append_cons. simpl. destruct (isspace c); [done|].
    rewrite <- append_cons. by apply rstrip_append_blank.
Qed.

Lemma strip_padded line line' : padded line line' → strip line' = strip line.
Proof.
  intros (w1 & w2 & H1 & H2 & ->). unfold strip at 1.
  rewrite (lstrip_blank_append w1 _ H1). by apply strip_append_blank.
Qed.

Lemma scan_line_strip snps line line' :
  strip line' = strip line → scan_line snps line' = scan_line snps line.
Proof. intros Heq. unfold scan_line. by rewrite Heq. Qed.

(** X8.  White space before and after a line has no influence: a file
    whose lines are indented, or end with a carriage return and a line
    feed, with a line feed alone or with nothing, gives what the file of
    the bare lines gives. *)
Theorem white_space_around_lines (lines lines' : list string) :
  Forall2 padded lines lines' → cell2 lines' = cell2 lines.
Proof.
  intros Hpad. unfold cell2, scan. generalize snps_init.
  assert (∀ s, for_each scan_line lines' s = for_each scan_line lines s) as Heq.
  { induction Hpad as [|line line' lines lines' Hl _ IH]; intros s; simpl; [done|].
    rewrite (scan_line_strip s line line' (strip_padded line line' Hl)).
    destruct (scan_line s line); simpl; [apply IH | done]. }
  intros s. by rewrite Heq.
Qed.

Lemma white_space_around_lines_witness :
  cell2 dos_lines = cell2 scenario_lines.
Proof.
  apply (white_space_around_lines scenario_lines dos_lines).
  repeat constructor.
  - exists "  ", (String (ascii_of_nat 13) (String newline EmptyString)).
    repeat split; reflexivity.
  - exists EmptyString, (String (ascii_of_nat 13) (String newline EmptyString)).
    repeat split; reflexivity.
  - exists EmptyString, (String (ascii_of_nat 13) (String newline EmptyString)).
    repeat split; reflexivity.
  - exists EmptyString, (String (ascii_of_nat 13) (String newline EmptyString)).
    repeat split; reflexivity.
Defined.

(** *** The order of the lines *)

Lemma well_formed_record lines line k :
  well_formed lines → line ∈ lines → k ∈ targets → names line k →
  ∃ g, records line k g.
Proof.
  intros Hwf Hl Hk Hn. pose proof (Hwf line k Hl Hk Hn) as Hlen.
  destruct (lookup_lt_is_Some_2 (fields line) 3) as [g Hg]; [lia|].
  by exists g.
Qed.

(** A SNP of the three is on no record of a well-formed file, or has a
    last record there. *)
Lemma absent_or_last_record lines k :
  well_formed lines → k ∈ targets →
  absent lines k ∨ ∃ g, last_record lines k g.
Proof.
  intros Hwf Hk. induction lines as [|line lines IH] using rev_ind.
  { left. intros l Hl. by apply elem_of_nil in Hl. }
  destruct (names_dec line k) as [Hn|Hn].
  - right.
    destruct (well_formed_record (lines ++ [line]) line k Hwf) as [g Hg];
      [apply elem_of_app; right; apply list_elem_of_here | done | done |].
    exists g, lines, line, []. split; [done|]. split; [done|].
    intros l Hl. by apply elem_of_nil in Hl.
  - destruct IH as [Habs | (g & before & l & after & -> & Hrec & Hafter)].
    { intros l k' Hl. apply Hwf, elem_of_app. by left. }
    + left. intros l Hl. apply elem_of_app in Hl as [Hl|Hl]; [by apply Habs|].
      by apply list_elem_of_singleton in Hl as ->.
    + right. exists g, before, l, (after ++ [line]).
      split; [by rewrite <- app_assoc|]. split; [done|].
      intros l' Hl'. apply elem_of_app in Hl' as [Hl'|Hl']; [by apply Hafter|].
      by apply list_elem_of_singleton in Hl' as ->.
Qed.

Lemma last_record_elem lines k g :
  last_record lines k g → ∃ line, line ∈ lines ∧ records line k g.
Proof.
  intros (before & line & after & -> & Hrec & _). exists line.
  split; [|done]. apply elem_of_app. right. apply list_elem_of_here.
Qed.

(** What the loop leaves for each of the three SNPs. *)
Lemma scan_entries lines :
  well_formed lines →
  ∃ snps, scan lines = Ok snps ∧ tracks snps
          ∧ ∀ k, k ∈ targets →
                 (absent lines k ∧ snps !! k = Some None)
                 ∨ (∃ g, last_record lines k g ∧ snps !! k = Some (Some g)).
Proof.
  intros Hwf.
  destruct (for_each_scan_total lines Hwf snps_init tracks_init) as (snps & Hs & Ht).
  exists snps. split; [done|]. split; [done|]. intros k Hk.
  destruct (absent_or_last_record lines k Hwf Hk) as [Habs | [g Hlast]].
  - left. split; [done|].
    destruct (scan_absent lines k Hwf Hk Habs) as (snps' & Hs' & _ & Hnone).
    unfold scan in Hs'. rewrite Hs in Hs'. by injection Hs' as <-.
  - right. exists g. split; [done|].
    destruct (scan_last_record lines k g Hwf Hk Hlast) as (snps' & Hs' & _ & Hg).
    unfold scan in Hs'. rewrite Hs in Hs'. by injection Hs' as <-.
Qed.

(** X9.  When the records that a well-formed file has of each SNP agree
    on its genotype, the order of its lines has no influence on what
    cell 2 prints and extracts. *)
Theorem order_of_lines_is_free (lines lines' : list string) :
  well_formed lines → consistent lines → lines ≡ₚ lines' →
  cell2 lines' = cell2 lines.
Proof.
  intros Hwf Hcon Hperm.
  assert (∀ l, l ∈ lines' ↔ l ∈ lines) as Hmem.
  { intros l. by rewrite Hperm. }
  assert (well_formed lines') as Hwf'.
  { intros l k Hl. apply Hwf. by apply Hmem. }
  destruct (scan_entries lines Hwf) as (snps & Hs & Ht & Hval).
  destruct (scan_entries lines' Hwf') as (snps' & Hs' & Ht' & Hval').
  assert (snps' = snps) as Heq.
  { apply map_eq. intros k. destruct (decide (k ∈ targets)) as [Hk|Hk].
    - destruct (Hval k Hk) as [[Habs ->] | (g & Hlast & ->)],
        (Hval' k Hk) as [[Habs' ->] | (g' & Hlast' & ->)].
      + done.
      + destruct (last_record_elem lines' k g' Hlast') as (l & Hl & [Hn _]).
        by destruct (Habs l (proj1 (Hmem l) Hl)).
      + destruct (last_record_elem lines k g Hlast) as (l & Hl & [Hn _]).
        by destruct (Habs' l (proj2 (Hmem l) Hl)).
      + destruct (last_record_elem lines k g Hlast) as (l & Hl & Hrec).
        destruct (last_record_elem lines' k g' Hlast') as (l' & Hl' & Hrec').
        by rewrite (Hcon l l' k g g' Hk Hl (proj1 (Hmem l') Hl') Hrec Hrec').
    - destruct (snps !! k) eqn:Hv.
      { exfalso. apply Hk, Ht. by rewrite Hv. }
      destruct (snps' !! k) eqn:Hv'; [|done].
      exfalso. apply Hk, Ht'. by rewrite Hv'. }
  unfold cell2. by rewrite Hs, Hs', Heq.
Qed.

Lemma order_of_lines_is_free_witness :
  cell2 Examples.shuffled_lines = cell2 scenario_lines.
Proof.
  apply (order_of_lines_is_free scenario_lines Examples.shuffled_lines).
  - intros line k Hline _ Hn. unfold scenario_lines in Hline.
    repeat (apply elem_of_cons in Hline as [->|Hline]);
      [vm_compute; lia.. | | by apply elem_of_nil in Hline].
    destruct Hn as [Hn _]. vm_compute in Hn. discriminate Hn.
  - intros l1 l2 k g1 g2 _ H1 H2 [[_ Hk1] Hg1] [[_ Hk2] Hg2].
    unfold scenario_lines in H1, H2.
    repeat (apply elem_of_cons in H1 as [->|H1]);
      [| | | | by apply elem_of_nil in H1];
      (repeat (apply elem_of_cons in H2 as [->|H2]);
       [| | | | by apply elem_of_nil in H2]);
      vm_compute in Hk1, Hk2, Hg1, Hg2; congruence.
  - apply (bool_decide_unpack (scenario_lines ≡ₚ Examples.shuffled_lines)).
    vm_compute. reflexivity.
Defined.

(** *** Records that are too short *)

(** X10.  A record of one of the three SNPs that has fewer than four
    fields ends cell 2 with [IndexError], whatever follows it in the
    file. *)
Theorem short_record_raises (before : list string) (line : string)
        (after : list string) (k : string) :
  well_formed before → k ∈ targets → names line k →
  (length (fields line) < 4)%nat →
  cell2 (before ++ line :: after) = Raise IndexError.
Proof.
  intros Hwf Hk Hn Hlen. unfold cell2.
  rewrite (scan_short_record before line after k Hwf Hk Hn); [done|].
  apply lookup_ge_None. lia.
Qed.

Lemma short_record_raises_witness :
  cell2 ([record_line "rs16891982" "5" "5678" "GG"]
           ++ "rs12913832" :: [record_line "rs12203592" "6" "9012" "CC"])
  = Raise IndexError.
Proof.
  apply (short_record_raises [record_line "rs16891982" "5" "5678" "GG"]
                             "rs12913832"
                             [record_line "rs12203592" "6" "9012" "CC"]
                             "rs12913832").
  - intros line k Hline _ _. apply list_elem_of_singleton in Hline as ->.
    vm_compute. lia.
  - apply list_elem_of_here.
  - split; reflexivity.
  - vm_compute. lia.
Defined.

Lemma targets_plain k : k ∈ targets → plain k.
Proof.
  unfold targets. rewrite !elem_of_cons, elem_of_nil.
  intros [->|[->|[->|[]]]]; by split.
Qed.

Lemma startswith_append_plain a s p :
  a ≠ EmptyString → startswith (a +:+ s) (String p EmptyString)
                    = startswith a (String p EmptyString).
Proof.
  destruct a as [|c a]; [done|]. intros _. rewrite append_cons. simpl.
  by destruct (a +:+ s), a.
Qed.

Lemma targets_not_comment k : k ∈ targets → startswith k "#" = false.
Proof.
  unfold targets. rewrite !elem_of_cons, elem_of_nil.
  intros [->|[->|[->|[]]]]; reflexivity.
Qed.

(** The loop sees three fields in a record whose line ends after the tab
    of its third field: the tab goes with the white space that is
    stripped. *)
Lemma fields_open_record a b c ending :
  plain a → plain b → plain c → blank ending = true →
  strip (open_record a b c ending) = a +:+ String tab (b +:+ String tab c)
  ∧ fields (open_record a b c ending) = [a; b; c].
Proof.
  intros Ha Hb Hc He.
  assert (strip (open_record a b c ending) = a +:+ String tab (b +:+ String tab c))
    as Hstrip.
  { unfold strip, open_record. rewrite (lstrip_plain a _ Ha).
    assert (a +:+ String tab (b +:+ String tab (c +:+ String tab ending))
            = (a +:+ String tab (b +:+ String tab c)) +:+ String tab ending) as ->.
    { by rewrite !append_assoc, !append_cons, !append_assoc, !append_cons. }
    rewrite rstrip_append_blank by (simpl; by rewrite He).
    assert (a +:+ String tab (b +:+ String tab c)
            = (a +:+ String tab (b +:+ String tab EmptyString)) +:+ c) as Hsplit.
    { by rewrite !append_assoc, !append_cons, !append_assoc, !append_cons,
        append_nil. }
    rewrite Hsplit at 1. by rewrite rstrip_append_plain, <- Hsplit. }
  split; [done|]. unfold fields. rewrite Hstrip.
  rewrite (split_solid_tab a), (split_solid_tab b), (split_solid c);
    [done | apply Hc | apply Hb | apply Ha].
Qed.

(** X11.  A record of one of the three SNPs whose genotype is left empty
    at the end of its line ends cell 2 with [IndexError]: stripping the
    line takes the last tab away, and three fields are left. *)
Theorem empty_last_genotype_raises (before : list string)
        (k chromosome position ending : string) (after : list string) :
  well_formed before → k ∈ targets →
  plain chromosome → plain position → blank ending = true →
  cell2 (before ++ open_record k chromosome position ending :: after)
  = Raise IndexError.
Proof.
  intros Hwf Hk Hb Hc He. unfold cell2.
  destruct (fields_open_record k chromosome position ending
              (targets_plain k Hk) Hb Hc He) as [Hstrip Hfields].
  rewrite (scan_short_record before _ after k Hwf Hk); [done | |].
  - split; [|by rewrite Hfields]. unfold skipped. rewrite Hstrip.
    rewrite startswith_append_plain by apply (targets_plain k Hk).
    by apply targets_not_comment.
  - by rewrite Hfields.
Qed.

Lemma empty_last_genotype_raises_witness :
  cell2 ([record_line "rs16891982" "5" "5678" "GG"]
           ++ open_record "rs12913832" "15" "1234" (String newline EmptyString)
           :: [record_line "rs12203592" "6" "9012" "CC"])
  = Raise IndexError.
Proof.
  apply (empty_last_genotype_raises
           [record_line "rs16891982" "5" "5678" "GG"]
           "rs12913832" "15" "1234" (String newline EmptyString)
           [record_line "rs12203592" "6" "9012" "CC"]).
  - intros line k Hline _ _. apply list_elem_of_singleton in Hline as ->.
    vm_compute. lia.
  - apply list_elem_of_here.
  - by split.
  - by split.
  - reflexivity.
Defined.

(** *** The listing *)

Lemma shown_of_entry lines snps k v :
  well_formed lines → k ∈ targets → scan lines = Ok snps →
  snps !! k = Some v →
  shown_for lines k (if truthy v then format v else "Unknown").
Proof.
  intros Hwf Hk Hs Hv. split.
  - intros Habs.
    destruct (scan_absent lines k Hwf Hk Habs) as (snps' & Hs' & _ & Hnone).
    rewrite Hs in Hs'. injection Hs' as <-. rewrite Hv in Hnone.
    by injection Hnone as ->.
  - intros g Hlast.
    destruct (scan_last_record lines k g Hwf Hk Hlast) as (snps' & Hs' & _ & Hg).
    rewrite Hs in Hs'. injection Hs' as <-. rewrite Hv in Hg.
    injection Hg as ->. by destruct g.
Qed.

(** X12.  On a well-formed file cell 2 prints one line for each of the
    three SNPs, in the order of the keys of [snps]; the line shows
    ["Unknown"] for a SNP that is on no record and for a SNP whose last
    record has an empty genotype, and the genotype of the last record
    otherwise. *)
Theorem listing_of_the_three_snps (lines : list string) :
  well_formed lines →
  ∃ v1 v2 v3 t,
    cell2 lines = Ok ([ listing_line rs12913832 v1;
                        listing_line rs16891982 v2;
                        listing_line rs12203592 v3 ], t)
    ∧ shown_for lines rs12913832 v1
    ∧ shown_for lines rs16891982 v2
    ∧ shown_for lines rs12203592 v3.
Proof.
  intros Hwf.
  destruct (for_each_scan_total lines Hwf snps_init tracks_init) as (snps & Hs & Ht).
  assert (rs12913832 ∈ targets) as Hk1 by (by vm_compute; left).
  assert (rs16891982 ∈ targets) as Hk2 by (by vm_compute; right; left).
  assert (rs12203592 ∈ targets) as Hk3 by (by vm_compute; right; right; left).
  destruct (proj2 (Ht rs12913832) Hk1) as [v1 H1].
  destruct (proj2 (Ht rs16891982) Hk2) as [v2 H2].
  destruct (proj2 (Ht rs12203592) Hk3) as [v3 H3].
  exists (if truthy v1 then format v1 else "Unknown"),
    (if truthy v2 then format v2 else "Unknown"),
    (if truthy v3 then format v3 else "Unknown").
  eexists. split.
  - unfold cell2, scan. rewrite Hs. simpl.
    unfold report_line, genotype_of, getitem. rewrite H1, H2, H3. simpl. done.
  - repeat split; by eapply shown_of_entry.
Qed.

Lemma listing_of_the_three_snps_witness :
  ∃ v1 v2 v3 t,
    cell2 empty_genotype_lines
    = Ok ([ listing_line rs12913832 v1;
            listing_line rs16891982 v2;
            listing_line rs12203592 v3 ], t)
    ∧ shown_for empty_genotype_lines rs12913832 v1
    ∧ shown_for empty_genotype_lines rs16891982 v2
    ∧ shown_for empty_genotype_lines rs12203592 v3.
Proof.
  apply (listing_of_the_three_snps empty_genotype_lines).
  intros line k Hline _ _. unfold empty_genotype_lines in Hline.
  repeat (apply elem_of_cons in Hline as [->|Hline]);
    [vm_compute; lia.. | by apply elem_of_nil in Hline].
Defined.

(** The listing and the tuple of a file whose record of rs12913832 has
    an empty genotype: the listing shows ["Unknown"] where the tuple has
    the empty text. *)
Example empty_genotype_listing :
  cell2 empty_genotype_lines
  = Ok ([ listing_line rs12913832 "Unknown";
          listing_line rs16891982 "GG";
          listing_line rs12203592 "Unknown" ],
        ("None", EmptyString, "GG")).
Proof. reflexivity. Qed.

End ExtractorMore.

(** ** Cell 4 *)

Module IndexMore.
Import IndexBuilder Reporter PyFacts IndexFacts.

Section Builder.
Context {uid : Type} `{Countable uid}.

(** *** The dictionary of eye colors *)

Lemma eyecolor_by_uid_snoc (users : list (eyecolor_item uid)) item :
  eyecolor_by_uid (users ++ [item])
  = od_set (user_id item) (lower (variation item)) (eyecolor_by_uid users).
Proof. unfold eyecolor_by_uid. by rewrite fold_left_app. Qed.

Lemma eyecolor_by_uid_app (users after : list (eyecolor_item uid)) :
  eyecolor_by_uid (users ++ after)
  = fold_left (fun d item => od_set (user_id item) (lower (variation item)) d)
              after (eyecolor_by_uid users).
Proof. unfold eyecolor_by_uid. by rewrite fold_left_app. Qed.

Lemma eyecolor_fold_other (after : list (eyecolor_item uid)) u :
  (∀ i, i ∈ after → user_id i ≠ u) →
  ∀ d, od_get u (fold_left
                   (fun d item => od_set (user_id item) (lower (variation item)) d)
                   after d)
       = od_get u d.
Proof.
  induction after as [|i after IH]; intros Hafter d; simpl; [done|].
  rewrite IH by (intros j Hj; by apply Hafter, list_elem_of_further).
  rewrite od_get_od_set, decide_False; [done|].
  intros Heq. by apply (Hafter i (list_elem_of_here _ _)).
Qed.

Lemma eyecolor_by_uid_last (users : list (eyecolor_item uid)) u item :
  last_entry users u item →
  od_get u (eyecolor_by_uid users) = Some (lower (variation item)).
Proof.
  intros (before & after & -> & Hu & Hafter).
  change (before ++ item :: after) with (before ++ [item] ++ after).
  rewrite app_assoc, eyecolor_by_uid_app, (eyecolor_fold_other after u Hafter).
  rewrite eyecolor_by_uid_snoc, od_get_od_set, decide_True; done.
Qed.

Lemma last_entry_exists (users : list (eyecolor_item uid)) u :
  u ∈ map user_id users → ∃ item, last_entry users u item.
Proof.
  induction users as [|i users IH] using rev_ind.
  { by intros ?%elem_of_nil. }
  rewrite map_app. intros Hu. destruct (decide (user_id i = u)) as [Hi|Hi].
  - exists i, users, []. split; [done|]. split; [done|].
    intros j Hj. by apply elem_of_nil in Hj.
  - apply elem_of_app in Hu as [Hu|Hu].
    + destruct (IH Hu) as (item & before & after & -> & Hitem & Hafter).
      exists item, before, (after ++ [i]). split; [by rewrite <- app_assoc|].
      split; [done|]. intros j Hj. apply elem_of_app in Hj as [Hj|Hj]; [by apply Hafter|].
      by apply list_elem_of_singleton in Hj as ->.
    + simpl in Hu. by apply list_elem_of_singleton in Hu.
Qed.

Lemma first_occurrences_elem (us : list uid) x : x ∈ first_occurrences us ↔ x ∈ us.
Proof.
  induction us as [|u us IH]; simpl; [done|].
  rewrite !elem_of_cons, list_elem_of_In, filter_In, <- list_elem_of_In, IH.
  rewrite negb_true_iff, bool_decide_eq_false.
  destruct (decide (x = u)); intuition.
Qed.

Lemma first_occurrences_snoc (us : list uid) u :
  first_occurrences (us ++ [u])
  = if decide (u ∈ us) then first_occurrences us else first_occurrences us ++ [u].
Proof.
  induction us as [|x us IH].
  { rewrite decide_False; [done | apply not_elem_of_nil]. }
  cbn [app first_occurrences]. rewrite IH.
  destruct (decide (u ∈ us)) as [Hin|Hin].
  - rewrite decide_True; [done | by apply list_elem_of_further].
  - rewrite List.filter_app. cbn [List.filter].
    destruct (decide (u = x)) as [->|Hne].
    + rewrite bool_decide_eq_true_2 by done. cbn [negb]. rewrite app_nil_r.
      rewrite decide_True; [done | apply list_elem_of_here].
    + rewrite bool_decide_eq_false_2 by done. cbn [negb].
      rewrite decide_False; [done|]. rewrite elem_of_cons. intuition.
Qed.

Lemma eyecolor_by_uid_keys (users : list (eyecolor_item uid)) :
  od_keys (eyecolor_by_uid users) = first_occurrences (map user_id users).
Proof.
  induction users as [|item users IH] using rev_ind; [done|].
  rewrite eyecolor_by_uid_snoc, od_keys_od_set, map_app. cbn [map].
  rewrite first_occurrences_snoc, IH.
  destruct (decide (user_id item ∈ map user_id users)) as [Hin|Hin].
  - rewrite decide_True; [done | by apply first_occurrences_elem].
  - rewrite decide_False; [done | by rewrite first_occurrences_elem].
Qed.

Lemma od_get_Some_key {V : Type} (d : list (uid * V)) k v :
  od_get k d = Some v → k ∈ od_keys d.
Proof.
  unfold od_keys. induction d as [|[k0 v0] d IH]; cbn [od_get map fst]; [done|].
  destruct (decide (k = k0)) as [->|]; [intros _; apply list_elem_of_here|].
  intros Hget. by apply list_elem_of_further, IH.
Qed.

Lemma eyecolor_by_uid_label (users : list (eyecolor_item uid)) u c :
  od_get u (eyecolor_by_uid users) = Some c → label_of users u c.
Proof.
  intros Hget. pose proof (od_get_Some_key _ _ _ Hget) as Hkey.
  rewrite eyecolor_by_uid_keys, first_occurrences_elem in Hkey.
  destruct (last_entry_exists users u Hkey) as [item Hitem].
  exists item. split; [done|].
  rewrite (eyecolor_by_uid_last users u item Hitem) in Hget. congruence.
Qed.

(** X13.  When the eye-color data set has several entries of a subject,
    the dictionary [eyecolor_by_uid] has the label of the last one, in
    lower case. *)
Theorem last_eyecolor_entry_wins (users : list (eyecolor_item uid)) (u : uid)
        (item : eyecolor_item uid) :
  last_entry users u item →
  od_get u (eyecolor_by_uid users) = Some (lower (variation item)).
Proof. apply eyecolor_by_uid_last. Qed.

(** X14.  The keys of [eyecolor_by_uid], over which cell 4 goes, are the
    distinct subjects of the eye-color data set in the order in which
    the data set first has them: a later entry of a subject changes the
    label and not the place. *)
Theorem eyecolor_keys_in_first_order (users : list (eyecolor_item uid)) :
  od_keys (eyecolor_by_uid users) = first_occurrences (map user_id users).
Proof. apply eyecolor_by_uid_keys. Qed.

(** *** The dictionaries of genotypes *)

Lemma genotype_by_uid_snoc (items : list (genotype_item uid)) item :
  genotype_by_uid (items ++ [item])
  = match genotypes item with
    | [] => genotype_by_uid items
    | g :: _ => <[id item := g]> (genotype_by_uid items)
    end.
Proof. unfold genotype_by_uid. by rewrite fold_left_app. Qed.

Lemma genotype_fold_other (after : list (genotype_item uid)) u :
  (∀ i, i ∈ after → id i = u → genotypes i = []) →
  ∀ m : gmap uid string,
    fold_left (fun m item =>
                 match genotypes item with
                 | [] => m
                 | g :: _ => <[id item := g]> m
                 end) after m !! u
    = m !! u.
Proof.
  induction after as [|i after IH]; intros Hafter m; simpl; [done|].
  rewrite IH by (intros j Hj; by apply Hafter, list_elem_of_further).
  destruct (genotypes i) as [|g rest] eqn:Hg; [done|].
  apply lookup_insert_ne. intros Hi.
  by rewrite (Hafter i (list_elem_of_here _ _) Hi) in Hg.
Qed.

Lemma genotype_by_uid_last (items : list (genotype_item uid)) u g :
  last_observed items u g → genotype_by_uid items !! u = Some g.
Proof.
  intros (before & item & rest & after & -> & Hu & Hg & Hafter).
  change (before ++ item :: after) with (before ++ [item] ++ after).
  rewrite app_assoc. unfold genotype_by_uid at 1. rewrite fold_left_app.
  rewrite (genotype_fold_other after u Hafter).
  fold (genotype_by_uid (before ++ [item])).
  rewrite genotype_by_uid_snoc, Hg, <- Hu. apply lookup_insert_eq.
Qed.

Lemma genotype_by_uid_observed_is_Some (items : list (genotype_item uid)) u g :
  observed items u g → is_Some (genotype_by_uid items !! u).
Proof.
  intros (item & rest & Hin & Hu & Hg).
  induction items as [|i items IH] using rev_ind.
  { by apply elem_of_nil in Hin. }
  rewrite genotype_by_uid_snoc.
  apply elem_of_app in Hin as [Hin|Hin].
  - destruct (genotypes i) as [|g' rest']; [by apply IH|].
    rewrite lookup_insert_is_Some. destruct (decide (id i = u)); [by left|].
    right. split; [done | by apply IH].
  - apply list_elem_of_singleton in Hin as <-. rewrite Hg, Hu.
    rewrite lookup_insert_eq. by eexists.
Qed.

(** X15.  When a genotype data set has several records of a subject, the
    dictionary has the first observation of the last record that has
    observations: a record with an empty list overwrites nothing. *)
Theorem last_observed_record_wins (items : list (genotype_item uid)) (u : uid)
        (g : string) :
  last_observed items u g → genotype_by_uid items !! u = Some g.
Proof. apply genotype_by_uid_last. Qed.

(** X16.  A subject is a key of the dictionary of a genotype data set
    exactly when a record of the subject has observations: a subject
    whose records all have an empty list is left out. *)
Theorem genotype_key_iff_observed (items : list (genotype_item uid)) (u : uid) :
  is_Some (genotype_by_uid items !! u) ↔ ∃ g, observed items u g.
Proof.
  split.
  - intros [g Hg]. exists g. by apply genotype_by_uid_observed.
  - intros [g Hg]. by apply (genotype_by_uid_observed_is_Some items u g).
Qed.

(** *** The index *)

Lemma filter_sublist {A : Type} (f : A -> bool) (l : list A) :
  sublist (List.filter f l) l.
Proof.
  induction l as [|x l IH]; simpl; [constructor|].
  destruct (f x); by constructor.
Qed.

Lemma lower_char_idempotent c : lower_char (lower_char c) = lower_char c.
Proof. destruct c as [[] [] [] [] [] [] [] []]; reflexivity. Qed.

Lemma lower_idempotent s : lower (lower s) = lower s.
Proof.
  induction s as [|c s IH]; simpl; [done|]. by rewrite lower_char_idempotent, IH.
Qed.

(** What a bucket of the index is, from the dictionaries of the cell. *)
Lemma bucket_members (ds : datasets uid)
      (idx : gmap (string * string * string) (list string))
      (t : string * string * string) (colors : list string) :
  genotypes_to_color ds = Ok idx → idx !! t = Some colors →
  let e := eyecolor_by_uid (opensnp_eyecolors ds) in
  let m1 := genotype_by_uid (opensnp_rs12203592 ds) in
  let m2 := genotype_by_uid (opensnp_rs12913832 ds) in
  let m3 := genotype_by_uid (opensnp_rs16891982 ds) in
  Forall2 (fun u c => od_get u e = Some c)
          (members m1 m2 m3 t (joint_uids e m1 m2 m3)) colors.
Proof.
  intros Hrun Hlook.
  destruct (IndexSpec.genotypes_to_color_indexes ds) as (idx' & Hrun' & Hidx).
  rewrite Hrun in Hrun'. injection Hrun' as <-.
  specialize (Hidx t). rewrite Hlook in Hidx. by destruct Hidx.
Qed.

Lemma member_has_bucket (ds : datasets uid)
      (idx : gmap (string * string * string) (list string))
      (t : string * string * string) (u : uid) (c : string) :
  genotypes_to_color ds = Ok idx →
  od_get u (eyecolor_by_uid (opensnp_eyecolors ds)) = Some c →
  tuple_of (genotype_by_uid (opensnp_rs12203592 ds))
           (genotype_by_uid (opensnp_rs12913832 ds))
           (genotype_by_uid (opensnp_rs16891982 ds)) u = Some t →
  ∃ colors, idx !! t = Some colors ∧ c ∈ colors.
Proof.
  intros Hrun Hc Ht.
  destruct (IndexSpec.genotypes_to_color_indexes ds) as (idx' & Hrun' & Hidx).
  rewrite Hrun in Hrun'. injection Hrun' as <-.
  set (e := eyecolor_by_uid (opensnp_eyecolors ds)) in *.
  set (m1 := genotype_by_uid (opensnp_rs12203592 ds)) in *.
  set (m2 := genotype_by_uid (opensnp_rs12913832 ds)) in *.
  set (m3 := genotype_by_uid (opensnp_rs16891982 ds)) in *.
  assert (u ∈ members m1 m2 m3 t (joint_uids e m1 m2 m3)) as Hu.
  { unfold members, joint_uids.
    rewrite list_elem_of_In, !filter_In, <- list_elem_of_In, bool_decide_eq_true.
    split; [|done]. split; [by apply (od_get_Some_key e u c)|].
    unfold in_all. unfold tuple_of in Ht.
    destruct (m1 !! u), (m2 !! u), (m3 !! u); done. }
  specialize (Hidx t). destruct (idx !! t) as [colors|].
  - destruct Hidx as [_ Hall]. exists colors. split; [done|].
    destruct (IndexSpec.Forall2_elem_left _ _ _ _ Hall Hu) as (c' & Hc' & Hget).
    rewrite Hc in Hget. by injection Hget as ->.
  - rewrite Hidx in Hu. by apply elem_of_nil in Hu.
Qed.

(** X17.  Cell 4 runs to its end on all data sets: the subjects that the
    loop goes over are keys of the four dictionaries, so that none of its
    lookups raises [KeyError]. *)
Theorem cell4_never_raises (ds : datasets uid) :
  ∃ idx, genotypes_to_color ds = Ok idx.
Proof.
  destruct (IndexSpec.genotypes_to_color_indexes ds) as (idx & Hidx & _).
  by exists idx.
Qed.

(** X18.  The labels of a bucket stand in the order in which the
    eye-color data set first has their subjects, and each is the label
    of the last entry of its subject, in lower case. *)
Theorem bucket_in_first_order (ds : datasets uid)
        (idx : gmap (string * string * string) (list string))
        (t : string * string * string) (colors : list string) :
  genotypes_to_color ds = Ok idx → idx !! t = Some colors →
  ∃ us : list uid,
    sublist us (first_occurrences (map user_id (opensnp_eyecolors ds)))
    ∧ Forall2 (label_of (opensnp_eyecolors ds)) us colors.
Proof.
  intros Hrun Hlook. pose proof (bucket_members ds idx t colors Hrun Hlook) as Hall.
  cbv zeta in Hall. eexists. split; [|eapply Forall2_impl; [apply Hall|]].
  - unfold members, joint_uids. rewrite <- eyecolor_by_uid_keys.
    etrans; apply filter_sublist.
  - intros u c. apply eyecolor_by_uid_label.
Qed.

(** X19.  A subject who has an eye-color entry and, in each of the three
    genotype data sets, a record with observations is in the index: the
    bucket of the genotype of the subject is there and has the label of
    the subject. *)
Theorem complete_subject_is_indexed (ds : datasets uid)
        (idx : gmap (string * string * string) (list string))
        (u : uid) (item : eyecolor_item uid) (a b c : string) :
  genotypes_to_color ds = Ok idx →
  last_entry (opensnp_eyecolors ds) u item →
  last_observed (opensnp_rs12203592 ds) u a →
  last_observed (opensnp_rs12913832 ds) u b →
  last_observed (opensnp_rs16891982 ds) u c →
  ∃ colors, idx !! (a, b, c) = Some colors ∧ lower (variation item) ∈ colors.
Proof.
  intros Hrun Hitem Ha Hb Hc.
  apply (member_has_bucket ds idx (a, b, c) u); [done | |].
  - by apply eyecolor_by_uid_last.
  - unfold tuple_of.
    by rewrite (genotype_by_uid_last _ u a Ha), (genotype_by_uid_last _ u b Hb),
      (genotype_by_uid_last _ u c Hc).
Qed.

(** X20.  Every label of the index is in lower case: lowering it again
    changes nothing. *)
Theorem labels_in_lower_case (ds : datasets uid)
        (idx : gmap (string * string * string) (list string))
        (t : string * string * string) (colors : list string) (c : string) :
  genotypes_to_color ds = Ok idx → idx !! t = Some colors → c ∈ colors →
  lower c = c.
Proof.
  intros Hrun Hlook Hc. pose proof (bucket_members ds idx t colors Hrun Hlook) as Hall.
  cbv zeta in Hall. apply Forall2_flip in Hall.
  destruct (IndexSpec.Forall2_elem_left _ _ _ _ Hall Hc) as (u & _ & Hget).
  destruct (eyecolor_by_uid_label _ u c Hget) as (item & _ & ->).
  apply lower_idempotent.
Qed.

End Builder.

Lemma last_eyecolor_entry_wins_witness :
  od_get "42" (eyecolor_by_uid (opensnp_eyecolors repeated_datasets))
  = Some (lower "BROWN").
Proof.
  apply (last_eyecolor_entry_wins (opensnp_eyecolors repeated_datasets) "42"
                                  {| user_id := "42"; variation := "BROWN" |}).
  exists [ {| user_id := "42"; variation := "Blue" |};
           {| user_id := "7"; variation := "Green" |};
           {| user_id := "9"; variation := "Hazel" |} ], [].
  split; [reflexivity|]. split; [reflexivity|].
  intros i Hi. by apply elem_of_nil in Hi.
Defined.

Lemma last_observed_rs12913832 :
  last_observed (opensnp_rs12913832 repeated_datasets) "42" "AG".
Proof.
  exists [ {| id := "42"; genotypes := ["AA"] |};
           {| id := "9"; genotypes := ["AG"] |} ],
    {| id := "42"; genotypes := ["AG"; "GG"] |}, ["GG"],
    [ {| id := "42"; genotypes := [] |}; {| id := "7"; genotypes := ["GG"] |} ].
  split; [reflexivity|]. split; [reflexivity|]. split; [reflexivity|].
  intros i Hi Hu. apply elem_of_cons in Hi as [->|Hi]; [reflexivity|].
  apply list_elem_of_singleton in Hi as ->. discriminate Hu.
Defined.

Lemma last_observed_record_wins_witness :
  genotype_by_uid (opensnp_rs12913832 repeated_datasets) !! "42" = Some "AG".
Proof.
  apply (last_observed_record_wins (opensnp_rs12913832 repeated_datasets) "42" "AG").
  apply last_observed_rs12913832.
Defined.

Lemma bucket_in_first_order_witness :
  ∃ us : list string,
    sublist us (first_occurrences
                  (map user_id (opensnp_eyecolors repeated_datasets)))
    ∧ Forall2 (label_of (opensnp_eyecolors repeated_datasets)) us
              ["brown"; "hazel"].
Proof.
  apply (bucket_in_first_order repeated_datasets repeated_index ("CC", "AG", "GG")).
  - reflexivity.
  - reflexivity.
Defined.

Lemma complete_subject_is_indexed_witness :
  ∃ colors, repeated_index !! ("CC", "AG", "GG") = Some colors
            ∧ lower "BROWN" ∈ colors.
Proof.
  apply (complete_subject_is_indexed
           repeated_datasets repeated_index "42"
           {| user_id := "42"; variation := "BROWN" |} "CC" "AG" "GG").
  - reflexivity.
  - exists [ {| user_id := "42"; variation := "Blue" |};
             {| user_id := "7"; variation := "Green" |};
             {| user_id := "9"; variation := "Hazel" |} ], [].
    split; [reflexivity|]. split; [reflexivity|].
    intros i Hi. by apply elem_of_nil in Hi.
  - exists [ {| id := "9"; genotypes := ["CC"] |} ],
      {| id := "42"; genotypes := ["CC"] |}, [],
      [ {| id := "7"; genotypes := [] |} ].
    split; [reflexivity|]. split; [reflexivity|]. split; [reflexivity|].
    intros i Hi Hu. apply list_elem_of_singleton in Hi as ->. reflexivity.
  - apply last_observed_rs12913832.
  - exists [], {| id := "42"; genotypes := ["GG"] |}, [],
      [ {| id := "9"; genotypes := ["GG"] |}; {| id := "7"; genotypes := ["GG"] |} ].
    split; [reflexivity|]. split; [reflexivity|]. split; [reflexivity|].
    intros i Hi Hu. apply elem_of_cons in Hi as [->|Hi]; [discriminate Hu|].
    apply list_elem_of_singleton in Hi as ->. discriminate Hu.
Defined.

Lemma labels_in_lower_case_witness : lower "brown" = "brown".
Proof.
  apply (labels_in_lower_case repeated_datasets repeated_index ("CC", "AG", "GG")
                              ["brown"; "hazel"] "brown").
  - reflexivity.
  - reflexivity.
  - apply list_elem_of_here.
Defined.

End IndexMore.

(** ** Cell 5 *)

Module ReporterMore.
Import Reporter PyFacts SortFacts TallyFacts ReporterFacts.

Lemma tabulate_labels f keys : map fst (tabulate f keys) = keys.
Proof. unfold tabulate. rewrite map_map. simpl. apply map_id. Qed.

Lemma tabulate_elem f keys c n :
  (c, n) ∈ tabulate f keys ↔ c ∈ keys ∧ n = f c.
Proof.
  unfold tabulate. rewrite list_elem_of_In, in_map_iff. split.
  - intros (x & [= -> ->] & Hx). split; [by apply list_elem_of_In | done].
  - intros [Hc ->]. exists c. split; [done | by apply list_elem_of_In].
Qed.

(** X21.  The tallying loop of cell 5 leaves every distinct label of the
    bucket once, in the order in which the bucket first has the labels,
    each with the number of its occurrences. *)
Theorem tally_counts_each_label (colors : list string) :
  map fst (tally colors) = first_seen colors
  ∧ NoDup (map fst (tally colors))
  ∧ ∀ c n, (c, n) ∈ tally colors ↔ c ∈ colors ∧ n = occurrences colors c.
Proof.
  rewrite tally_spec, tabulate_labels. split; [done|].
  split; [apply first_seen_NoDup|]. intros c n.
  by rewrite tabulate_elem, first_seen_elem.
Qed.

Lemma sorted_tally_labels colors :
  map fst (sorted_reverse snd (tally colors)) ≡ₚ first_seen colors.
Proof.
  rewrite (Permutation_map fst (sorted_reverse_perm snd (tally colors))).
  by rewrite tally_spec, tabulate_labels.
Qed.

Lemma cell5_ok idx t r :
  cell5 idx t = Ok r →
  ∃ colors,
    idx !! t = Some colors
    ∧ r = {| color_counts := sorted_reverse snd (tally colors);
             color_count_sum := Z.of_nat (length colors);
             color_count_percentages :=
               shares (Z.of_nat (length colors))
                      (sorted_reverse snd (tally colors)) |}.
Proof.
  unfold cell5, getitem. destruct (idx !! t) as [colors|]; [|done].
  simpl. rewrite distribution_total. intros [= <-]. by exists colors.
Qed.

(** X22.  When cell 5 gives a result, its total is the number of labels
    of the bucket, and its distribution has every distinct label of the
    bucket once and no other label. *)
Theorem distribution_has_each_label
        (genotypes_to_color : gmap (string * string * string) (list string))
        (your_genotype : string * string * string) (r : report) :
  cell5 genotypes_to_color your_genotype = Ok r →
  ∃ colors,
    genotypes_to_color !! your_genotype = Some colors
    ∧ color_count_sum r = Z.of_nat (length colors)
    ∧ NoDup (map fst (color_count_percentages r))
    ∧ ∀ c, c ∈ map fst (color_count_percentages r) ↔ c ∈ colors.
Proof.
  intros Hr. destruct (cell5_ok _ _ _ Hr) as (colors & Hlook & ->).
  exists colors. split; [done|]. split; [done|]. simpl.
  rewrite shares_labels. split.
  - rewrite sorted_tally_labels. apply first_seen_NoDup.
  - intros c. by rewrite sorted_tally_labels, first_seen_elem.
Qed.

Lemma distribution_has_each_label_witness :
  ∃ colors,
    Examples.scenario_index !! ("CC", "AG", "GG") = Some colors
    ∧ color_count_sum Examples.scenario_report = Z.of_nat (length colors)
    ∧ NoDup (map fst (color_count_percentages Examples.scenario_report))
    ∧ ∀ c, c ∈ map fst (color_count_percentages Examples.scenario_report)
           ↔ c ∈ colors.
Proof.
  apply (distribution_has_each_label Examples.scenario_index ("CC", "AG", "GG")
                                     Examples.scenario_report).
  reflexivity.
Defined.

Lemma shares_elem total counts c q :
  (c, q) ∈ shares total counts →
  ∃ n, (c, n) ∈ counts ∧ q = (inject_Z n / inject_Z total)%Q.
Proof.
  unfold shares. rewrite list_elem_of_In, in_map_iff.
  intros ([c' n] & Heq & Hin). simpl in Heq. injection Heq as <- <-.
  exists n. split; [by apply list_elem_of_In | done].
Qed.

Lemma occurrences_bounds colors c :
  c ∈ colors → 1 <= occurrences colors c <= Z.of_nat (length colors).
Proof.
  unfold occurrences. intros Hc. split.
  - induction colors as [|x colors IH]; [by apply elem_of_nil in Hc|].
    cbn [List.filter]. apply elem_of_cons in Hc as [->|Hc].
    + rewrite bool_decide_eq_true_2 by done. simpl length. lia.
    + destruct (bool_decide (x = c)); [simpl length; lia | by apply IH].
  - apply inj_le, filter_length_le.
Qed.

Lemma quotient_bounds n total :
  1 <= n <= total →
  (0 < inject_Z n / inject_Z total)%Q ∧ (inject_Z n / inject_Z total <= 1)%Q.
Proof.
  intros [Hn Ht].
  assert (0 < inject_Z total)%Q as Hpos.
  { change 0%Q with (inject_Z 0). rewrite <- Zlt_Qlt. lia. }
  split.
  - apply Qlt_shift_div_l; [done|]. rewrite Qmult_0_l.
    change 0%Q with (inject_Z 0). rewrite <- Zlt_Qlt. lia.
  - apply Qle_shift_div_r; [done|]. rewrite Qmult_1_l. rewrite <- Zle_Qle. lia.
Qed.

Lemma share_of_label colors c q :
  (c, q) ∈ shares (Z.of_nat (length colors)) (sorted_reverse snd (tally colors)) →
  c ∈ colors
  ∧ q = (inject_Z (occurrences colors c) / inject_Z (Z.of_nat (length colors)))%Q.
Proof.
  intros Hq. destruct (shares_elem _ _ _ _ Hq) as (n & Hn & ->).
  rewrite (sorted_reverse_perm snd (tally colors)), tally_spec, tabulate_elem,
    first_seen_elem in Hn.
  by destruct Hn as [Hc ->].
Qed.

(** X23.  Every share that cell 5 gives is the number of occurrences of
    its label in the bucket divided by the number of labels of the
    bucket; it is more than 0 and at most 1. *)
Theorem share_is_count_over_total
        (genotypes_to_color : gmap (string * string * string) (list string))
        (your_genotype : string * string * string) (r : report)
        (colors : list string) (c : string) (q : Q) :
  cell5 genotypes_to_color your_genotype = Ok r →
  genotypes_to_color !! your_genotype = Some colors →
  (c, q) ∈ color_count_percentages r →
  q = (inject_Z (occurrences colors c) / inject_Z (Z.of_nat (length colors)))%Q
  ∧ (0 < q)%Q ∧ (q <= 1)%Q.
Proof.
  intros Hr Hlook Hq. destruct (cell5_ok _ _ _ Hr) as (colors' & Hlook' & ->).
  rewrite Hlook in Hlook'. injection Hlook' as <-. simpl in Hq.
  destruct (share_of_label colors c q Hq) as [Hc ->].
  split; [done|]. by apply quotient_bounds, occurrences_bounds.
Qed.

Lemma share_is_count_over_total_witness :
  1%Q = (inject_Z (occurrences ["brown"] "brown")
         / inject_Z (Z.of_nat (length ["brown"])))%Q
  ∧ (0 < 1)%Q ∧ (1 <= 1)%Q.
Proof.
  apply (share_is_count_over_total
           Examples.scenario_index ("CC", "AG", "GG") Examples.scenario_report
           ["brown"] "brown" 1%Q).
  - reflexivity.
  - reflexivity.
  - apply list_elem_of_here.
Defined.

(** X24.  Cell 5 ends with an exception only when [your_genotype] is not
    a key of the index, and the exception is [KeyError]: on a key that is
    there it never divides by zero, not even when the list of the key is
    empty. *)
Theorem cell5_raises_only_KeyError
        (genotypes_to_color : gmap (string * string * string) (list string))
        (your_genotype : string * string * string) (e : exn) :
  cell5 genotypes_to_color your_genotype = Raise e →
  e = KeyError ∧ genotypes_to_color !! your_genotype = None.
Proof.
  unfold cell5, getitem. destruct (genotypes_to_color !! your_genotype) as [colors|].
  - simpl. by rewrite distribution_total.
  - simpl. by intros [= <-].
Qed.

Lemma cell5_raises_only_KeyError_witness :
  KeyError = KeyError
  ∧ (∅ : gmap (string * string * string) (list string)) !! ("CC", "AG", "GG") = None.
Proof.
  apply (cell5_raises_only_KeyError ∅ ("CC", "AG", "GG") KeyError). reflexivity.
Defined.

(** A key with an empty list, which cell 4 never makes, gives the empty
    distribution and the total 0. *)
Example cell5_empty_bucket :
  cell5 (<[("CC", "AG", "GG") := []]> ∅) ("CC", "AG", "GG")
  = Ok {| color_counts := []; color_count_sum := 0;
          color_count_percentages := [] |}.
Proof. reflexivity. Qed.

End ReporterMore.

(** ** From the file to the distribution *)

Module NotebookMore.
Import Extractor IndexBuilder Reporter Notebook.
Import PyFacts ExtractorFacts IndexFacts ReporterFacts.

Section Run.
Context {uid : Type} `{Countable uid}.

(** A bucket of the index has a subject with an observation of its
    genotype at each SNP. *)
Lemma bucket_has_subject (ds : datasets uid)
      (idx : gmap (string * string * string) (list string))
      (t : string * string * string) (colors : list string) :
  genotypes_to_color ds = Ok idx → idx !! t = Some colors →
  ∃ u, observed (opensnp_rs12203592 ds) u t.1.1
       ∧ observed (opensnp_rs12913832 ds) u t.1.2
       ∧ observed (opensnp_rs16891982 ds) u t.2.
Proof.
  intros Hrun Hlook.
  destruct (IndexSpec.genotypes_to_color_indexes ds) as (idx' & Hrun' & Hidx).
  rewrite Hrun in Hrun'. injection Hrun' as <-.
  specialize (Hidx t). rewrite Hlook in Hidx. destruct Hidx as [Hne _].
  set (e := eyecolor_by_uid (opensnp_eyecolors ds)) in *.
  set (m1 := genotype_by_uid (opensnp_rs12203592 ds)) in *.
  set (m2 := genotype_by_uid (opensnp_rs12913832 ds)) in *.
  set (m3 := genotype_by_uid (opensnp_rs16891982 ds)) in *.
  destruct (members m1 m2 m3 t (joint_uids e m1 m2 m3)) as [|u us] eqn:Hm; [done|].
  assert (u ∈ members m1 m2 m3 t (joint_uids e m1 m2 m3)) as Hu.
  { rewrite Hm. apply list_elem_of_here. }
  unfold members in Hu.
  rewrite list_elem_of_In, filter_In, bool_decide_eq_true in Hu.
  destruct Hu as [_ Ht]. unfold tuple_of in Ht.
  destruct (m1 !! u) as [a|] eqn:Ha; [|done].
  destruct (m2 !! u) as [b|] eqn:Hb; [|done].
  destruct (m3 !! u) as [c|] eqn:Hc; [|done].
  injection Ht as <-. exists u. simpl.
  repeat split; by apply genotype_by_uid_observed.
Qed.

Lemma observed_at (ds : datasets uid) (k : string) (u : uid)
      (t : string * string * string) :
  k ∈ targets →
  observed (opensnp_rs12203592 ds) u t.1.1 →
  observed (opensnp_rs12913832 ds) u t.1.2 →
  observed (opensnp_rs16891982 ds) u t.2 →
  ∃ items, items ∈ [opensnp_rs12203592 ds; opensnp_rs12913832 ds;
                    opensnp_rs16891982 ds]
           ∧ observed items u (component k t).
Proof.
  unfold targets, component. rewrite !elem_of_cons, elem_of_nil.
  intros [->|[->|[->|[]]]] H1 H2 H3.
  - exists (opensnp_rs12913832 ds). split; [|done]. rewrite !elem_of_cons. tauto.
  - exists (opensnp_rs16891982 ds). split; [|done]. rewrite !elem_of_cons. tauto.
  - exists (opensnp_rs12203592 ds). split; [|done]. rewrite !elem_of_cons. tauto.
Qed.

(** X25.  When the file is well formed and has no record of one of the
    three SNPs, and no record of the genotype data sets begins with the
    text ["None"], the run ends at the lookup of cell 5 with
    [KeyError]: the tuple of the file has ["None"] at the place of the
    SNP, and no key of the index has. *)
Theorem missing_snp_ends_in_KeyError
        (lines : list string) (ds : datasets uid) (k : string) :
  well_formed lines → k ∈ targets → absent lines k →
  (∀ items u, items ∈ [opensnp_rs12203592 ds; opensnp_rs12913832 ds;
                       opensnp_rs16891982 ds] →
              ¬ observed items u "None") →
  analysis lines ds = Raise KeyError.
Proof.
  intros Hwf Hk Habs Hnone. unfold analysis.
  destruct (scan_absent lines k Hwf Hk Habs) as (snps & Hs & Ht & Hsnp).
  destruct (cell2_after_scan lines snps Hs Ht) as (t & -> & Hc).
  simpl. destruct (IndexSpec.genotypes_to_color_indexes ds) as (idx & Hrun & _).
  rewrite Hrun. simpl. unfold cell5, getitem.
  destruct (idx !! t) as [colors|] eqn:Hlook; [|done].
  exfalso. destruct (bucket_has_subject ds idx t colors Hrun Hlook) as (u & H1 & H2 & H3).
  destruct (observed_at ds k u t Hk H1 H2 H3) as (items & Hitems & Hobs).
  rewrite (Hc k None Hk Hsnp) in Hobs. by apply (Hnone items u Hitems).
Qed.


End Run.

Ltac no_line_names :=
  let Hline := fresh "Hline" in let Hn := fresh "Hnames" in
  intros ? Hline Hn;
  repeat (apply elem_of_cons in Hline as [->|Hline]);
  try (by apply elem_of_nil in Hline);
  first [ destruct Hn as [Hn _]; vm_compute in Hn; discriminate Hn
        | destruct Hn as [_ Hn]; vm_compute in Hn; discriminate Hn ].

Ltac four_fields :=
  let Hline := fresh "Hline" in let Hn := fresh "Hnames" in
  intros ? ? Hline _ Hn;
  repeat (apply elem_of_cons in Hline as [->|Hline]);
  try (by apply elem_of_nil in Hline);
  first [ vm_compute; lia
        | destruct Hn as [Hn _]; vm_compute in Hn; discriminate Hn ].

Lemma missing_snp_ends_in_KeyError_witness :
  analysis Examples.partial_lines Examples.scenario_datasets = Raise KeyError.
Proof.
  apply (missing_snp_ends_in_KeyError Examples.partial_lines
                                      Examples.scenario_datasets rs12203592).
  - unfold Examples.partial_lines. four_fields.
  - by vm_compute; right; right; left.
  - unfold absent, Examples.partial_lines. no_line_names.
  - intros items u Hitems (item & rest & Hitem & _ & Hg).
    repeat (apply elem_of_cons in Hitems as [->|Hitems]);
      try (by apply elem_of_nil in Hitems);
      simpl in Hitem;
      repeat (apply elem_of_cons in Hitem as [->|Hitem]);
      try (by apply elem_of_nil in Hitem);
      discriminate Hg.
Defined.


(** The run on the file of the scenario and on the data sets with
    repeated entries: two subjects match, and each label has half. *)
Example scenario_analysis :
  analysis scenario_lines repeated_datasets
  = Ok {| color_counts := [("brown", 1); ("hazel", 1)];
          color_count_sum := 2;
          color_count_percentages := [("brown", 1 # 2); ("hazel", 1 # 2)] |}.
Proof. reflexivity. Qed.

End NotebookMore.

(** ** The file read line by line *)

Module FileMore.
Import Extractor PyFacts ExtractorFacts.

Lemma file_lines_line l s :
  one_line l = true →
  file_lines (l +:+ String newline s)
  = (l +:+ String newline EmptyString) :: file_lines s.
Proof.
  induction l as [|c l IH]; intros Hl.
  - rewrite !append_nil. reflexivity.
  - rewrite !append_cons. simpl in *.
    apply andb_true_iff in Hl as [Hc Hl]. apply negb_true_iff in Hc.
    by rewrite Hc, (IH Hl).
Qed.

Lemma file_lines_unlines lines :
  (∀ l, l ∈ lines → one_line l = true) →
  file_lines (unlines lines)
  = map (fun l => l +:+ String newline EmptyString) lines.
Proof.
  induction lines as [|l lines IH]; intros Hlines; [done|].
  cbn [unlines fold_right map]. fold (unlines lines).
  rewrite file_lines_line by apply Hlines, list_elem_of_here.
  f_equal. apply IH. intros l' Hl'. by apply Hlines, list_elem_of_further.
Qed.

(** X27.  Reading a file line by line gives back the lines that were
    written to it with a line feed after each, and the line feeds have
    no influence: cell 2 on the text of the file gives what it gives on
    the lines. *)
Theorem text_read_line_by_line (lines : list string) :
  (∀ l, l ∈ lines → one_line l = true) →
  file_lines (unlines lines)
  = map (fun l => l +:+ String newline EmptyString) lines
  ∧ cell2 (file_lines (unlines lines)) = cell2 lines.
Proof.
  intros Hlines. rewrite (file_lines_unlines lines Hlines). split; [done|].
  unfold cell2, scan. clear Hlines. generalize snps_init.
  assert (∀ s, for_each scan_line
                 (map (fun l => l +:+ String newline EmptyString) lines) s
               = for_each scan_line lines s) as Heq.
  { induction lines as [|l lines IH]; intros s; simpl; [done|].
    rewrite (ExtractorMore.scan_line_strip s l (l +:+ String newline EmptyString)).
    - destruct (scan_line s l); simpl; [apply IH | done].
    - by apply ExtractorMore.strip_append_blank. }
  intros s. by rewrite Heq.
Qed.

Lemma text_read_line_by_line_witness :
  file_lines (unlines scenario_lines)
  = map (fun l => l +:+ String newline EmptyString) scenario_lines
  ∧ cell2 (file_lines (unlines scenario_lines)) = cell2 scenario_lines.
Proof.
  apply (text_read_line_by_line scenario_lines).
  intros l Hl. unfold scenario_lines in Hl.
  repeat (apply elem_of_cons in Hl as [->|Hl]);
    [reflexivity.. | by apply elem_of_nil in Hl].
Defined.

End FileMore.

(** ** The subjects that cell 4 goes over *)

Module JointMore.
Import IndexBuilder PyFacts IndexFacts.

Section Joint.
Context {uid : Type} `{Countable uid}.

(** X28.  The list [joint_uids] has every subject once; a subject is in
    it exactly when the eye-color data set has an entry of the subject
    and each of the three genotype data sets has a record of the subject
    with observations. *)
Theorem joint_uids_are_the_complete_subjects (ds : datasets uid) (u : uid) :
  let e := eyecolor_by_uid (opensnp_eyecolors ds) in
  let m1 := genotype_by_uid (opensnp_rs12203592 ds) in
  let m2 := genotype_by_uid (opensnp_rs12913832 ds) in
  let m3 := genotype_by_uid (opensnp_rs16891982 ds) in
  NoDup (joint_uids e m1 m2 m3)
  ∧ (u ∈ joint_uids e m1 m2 m3
     ↔ u ∈ map user_id (opensnp_eyecolors ds)
       ∧ (∃ g, observed (opensnp_rs12203592 ds) u g)
       ∧ (∃ g, observed (opensnp_rs12913832 ds) u g)
       ∧ (∃ g, observed (opensnp_rs16891982 ds) u g)).
Proof.
  cbv zeta. split.
  - unfold joint_uids. apply NoDup_ListNoDup, List.NoDup_filter, NoDup_ListNoDup.
    apply eyecolor_by_uid_NoDup.
  - unfold joint_uids, in_all.
    rewrite list_elem_of_In, filter_In, <- list_elem_of_In.
    rewrite IndexMore.eyecolor_by_uid_keys, IndexMore.first_occurrences_elem.
    rewrite !andb_true_iff, !bool_decide_eq_true.
    assert (∀ items : list (genotype_item uid),
              is_Some (genotype_by_uid items !! u) ↔ ∃ g, observed items u g)
      as Hkey.
    { intros items. split.
      - intros [g Hg]. exists g. by apply genotype_by_uid_observed.
      - intros [g Hg]. by apply (IndexMore.genotype_by_uid_observed_is_Some items u g). }
    rewrite !Hkey. tauto.
Qed.

End Joint.

End JointMore.
